(** * Semantic router configurator: validator and generator

    A shallow embedding of [validate_plugin], [validate_config] and
    [generate_config] of [app.py].  The functions are dynamically typed:
    every value they touch is a parsed JSON / YAML datum, and every
    operation on it ([in], subscripting, [.get], iteration, comparison) may
    raise.  Values are therefore a tagged union, and every function lives in
    an error monad whose failures are the Python exceptions. *)

From Stdlib Require Import ZArith QArith List String Ascii Bool Lia.
From Stdlib Require Import SpecFloat DecimalString.
Import ListNotations.

Local Open Scope string_scope.
Local Open Scope Z_scope.

(** ** Values *)

(** The data a JSON body or a YAML document parses to.  A [float] is an
    IEEE 754 double; a [str] is held as its UTF-8 bytes; a [dict] keeps
    its insertion order, so it is an association list (keys are unique in
    a dict the parser built).  The rarer YAML scalars (timestamps,
    binary) are left out. *)
#[warnings="-register-all"] Inductive pyval : Type :=
| VNone
| VBool (b : bool)
| VInt (n : Z)
| VFloat (f : spec_float)
| VStr (s : string)
| VList (items : list pyval)
| VDict (items : list (pyval * pyval)).

(** ** Exceptions and the error monad *)

Inductive exn : Type :=
| TypeError
| KeyError
| AttributeError
| ValueError
| RecursionError.

Inductive result (A : Type) : Type :=
| Ok (a : A)
| Raise (e : exn).

Arguments Ok {A} a.
Arguments Raise {A} e.

Definition bind {A B : Type} (m : result A) (k : A -> result B) : result B :=
  match m with
  | Ok a => k a
  | Raise e => Raise e
  end.

Notation "x <- m ;; k" := (bind m (fun x => k))
  (at level 61, m at next level, right associativity).

(** [for x in l: body] over a state [s] (the list being built). *)
Fixpoint for_each {A St : Type} (body : A -> St -> result St)
         (l : list A) (s : St) : result St :=
  match l with
  | [] => Ok s
  | x :: rest => s' <- body x s ;; for_each body rest s'
  end.

(** [for i, x in enumerate(l): body], counting from [i]. *)
Fixpoint for_enumerate {A St : Type} (body : nat -> A -> St -> result St)
         (i : nat) (l : list A) (s : St) : result St :=
  match l with
  | [] => Ok s
  | x :: rest => s' <- body i x s ;; for_enumerate body (S i) rest s'
  end.

(** ** Python primitives *)

(** [v == s] for a string literal [s]: only an equal [str] compares equal. *)
Definition eq_str (s : string) (v : pyval) : bool :=
  match v with
  | VStr s' => String.eqb s s'
  | _ => false
  end.

(** [d.get(k)] on the items of a dict, [None] when the key is absent. *)
Fixpoint dict_get (items : list (pyval * pyval)) (k : string) : option pyval :=
  match items with
  | [] => None
  | (k', v) :: rest => if eq_str k k' then Some v else dict_get rest k
  end.

(** [d[k] = v]: overwrite in place, or append a new key at the end. *)
Fixpoint dict_set (items : list (pyval * pyval)) (k : string) (v : pyval)
  : list (pyval * pyval) :=
  match items with
  | [] => [(VStr k, v)]
  | (k', v') :: rest =>
      if eq_str k k' then (k', v) :: rest else (k', v') :: dict_set rest k v
  end.

(** [needle in hay] on two strings: substring test. *)
Fixpoint str_contains (needle hay : string) : bool :=
  String.prefix needle hay
  || match hay with
     | EmptyString => false
     | String _ rest => str_contains needle rest
     end.

(** [k in x] for a string literal [k]. *)
Definition py_contains (k : string) (x : pyval) : result bool :=
  match x with
  | VDict items =>
      Ok (match dict_get items k with Some _ => true | None => false end)
  | VList items => Ok (existsb (eq_str k) items)
  | VStr s => Ok (str_contains k s)
  | VNone | VBool _ | VInt _ | VFloat _ => Raise TypeError
  end.

(** [x[k]] for a string literal [k]. *)
Definition py_getitem (x : pyval) (k : string) : result pyval :=
  match x with
  | VDict items =>
      match dict_get items k with
      | Some v => Ok v
      | None => Raise KeyError
      end
  | _ => Raise TypeError
  end.

(** [x.get(k, default)]: only a dict has the method. *)
Definition py_get (x : pyval) (k : string) (default : pyval) : result pyval :=
  match x with
  | VDict items =>
      Ok (match dict_get items k with Some v => v | None => default end)
  | _ => Raise AttributeError
  end.

(** A byte of the form [10xxxxxx], which continues a UTF-8 sequence. *)
Definition is_continuation (c : ascii) : bool :=
  match c with
  | Ascii _ _ _ _ _ _ b6 b7 => b7 && negb b6
  end.

(** The characters (code points) of a string, each with its bytes. *)
Fixpoint code_points (s : string) : list string :=
  match s with
  | EmptyString => []
  | String c rest =>
      let chars := code_points rest in
      let continued :=
        match rest with
        | String c' _ => is_continuation c'
        | EmptyString => false
        end in
      match chars with
      | following :: others =>
          if continued then String c following :: others
          else String c EmptyString :: chars
      | [] => [String c EmptyString]
      end
  end.

(** The elements [for _ in x] visits: a list's items, a dict's keys, a
    string's characters. *)
Definition py_iter (x : pyval) : result (list pyval) :=
  match x with
  | VList items => Ok items
  | VDict items => Ok (map fst items)
  | VStr s => Ok (map VStr (code_points s))
  | VNone | VBool _ | VInt _ | VFloat _ => Raise TypeError
  end.

Definition float_is_zero (f : spec_float) : bool :=
  match f with
  | S754_zero _ => true
  | _ => false
  end.

(** Truth value of [x], as [if x], [not x] and [x or y] test it. *)
Definition py_truthy (x : pyval) : bool :=
  match x with
  | VNone => false
  | VBool b => b
  | VInt n => negb (n =? 0)
  | VFloat f => negb (float_is_zero f)
  | VStr s => negb (String.eqb s "")
  | VList items => match items with [] => false | _ => true end
  | VDict items => match items with [] => false | _ => true end
  end.

(** [isinstance(x, bool)]. *)
Definition is_bool (x : pyval) : bool :=
  match x with
  | VBool _ => true
  | _ => false
  end.

(** [isinstance(x, int)]: [bool] is a subclass of [int]. *)
Definition is_int (x : pyval) : bool :=
  match x with
  | VInt _ | VBool _ => true
  | _ => false
  end.

(** [isinstance(x, (int, float))]. *)
Definition is_number (x : pyval) : bool :=
  match x with
  | VInt _ | VBool _ | VFloat _ => true
  | _ => false
  end.

(** Exact comparison of a double with an integer; [None] for a NaN, which
    is unordered. *)
Definition float_compare_Z (f : spec_float) (k : Z) : option comparison :=
  match f with
  | S754_nan => None
  | S754_zero _ => Some (0 ?= k)
  | S754_infinity neg => Some (if neg then Lt else Gt)
  | S754_finite neg m e =>
      let sm := if neg then Z.neg m else Z.pos m in
      match e with
      | Z.neg p => Some (sm ?= k * Z.pos (Pos.pow 2 p))
      | _ => Some (sm * 2 ^ e ?= k)
      end
  end.

(** [x ?= k] for an integer literal [k]; ordering a non-number against an
    [int] raises. *)
Definition py_compare (x : pyval) (k : Z) : result (option comparison) :=
  match x with
  | VBool b => Ok (Some ((if b then 1 else 0) ?= k))
  | VInt n => Ok (Some (n ?= k))
  | VFloat f => Ok (float_compare_Z f k)
  | _ => Raise TypeError
  end.

Definition py_lt (x : pyval) (k : Z) : result bool :=
  c <- py_compare x k ;;
  Ok (match c with Some Lt => true | _ => false end).

Definition py_gt (x : pyval) (k : Z) : result bool :=
  c <- py_compare x k ;;
  Ok (match c with Some Gt => true | _ => false end).

Definition py_le (x : pyval) (k : Z) : result bool :=
  c <- py_compare x k ;;
  Ok (match c with Some Lt | Some Eq => true | _ => false end).

(** [l.append(x)] and [l.extend(l')]. *)
Definition append {A : Type} (l : list A) (x : A) : list A := (l ++ [x])%list.

Definition extend {A : Type} (l l' : list A) : list A := (l ++ l')%list.

(** [a or b] on two tests, the second evaluated only when the first fails. *)
Definition or_else (a : bool) (b : result bool) : result bool :=
  if a then Ok true else b.

(** [a and b], likewise. *)
Definition and_then (a : bool) (b : result bool) : result bool :=
  if a then b else Ok false.

(** Decimal text of an [int]. *)
Definition str_of_Z (n : Z) : string :=
  NilZero.string_of_int (Z.to_int n).

(** The interpreter's default limit on the digits of an [int] turned into
    text ([sys.int_info.default_max_str_digits]). *)
Definition INT_MAX_STR_DIGITS : Z := 4300.

(** [str(n)]: [ValueError] for an [int] of more digits than the limit. *)
Definition str_of_int (n : Z) : result string :=
  if Z.abs n <? 10 ^ INT_MAX_STR_DIGITS then Ok (str_of_Z n)
  else Raise ValueError.

Definition str_of_nat (n : nat) : string :=
  NilZero.string_of_uint (Nat.to_uint n).

(** ** Static tables *)

Definition SUPPORTED_PLUGINS : list string :=
  [ "semantic-cache"; "jailbreak"; "pii"; "system_prompt";
    "header_mutation"; "hallucination"; "router_replay" ].

Record plugin_schema : Type := mk_schema
  { required : list string;
    optional : list string }.

Definition PLUGIN_SCHEMAS : list (string * plugin_schema) :=
  [ ("semantic-cache",
     mk_schema ["enabled"] ["similarity_threshold"; "ttl_seconds"]);
    ("jailbreak", mk_schema ["enabled"] ["threshold"]);
    ("pii", mk_schema ["enabled"] ["threshold"; "pii_types_allowed"]);
    ("system_prompt", mk_schema ["enabled"] ["system_prompt"; "mode"]);
    ("header_mutation", mk_schema [] ["add"; "update"; "delete"]);
    ("hallucination",
     mk_schema ["enabled"] ["use_nli"; "hallucination_action"]);
    ("router_replay",
     mk_schema ["enabled"]
               ["max_records"; "capture_request_body";
                "capture_response_body"; "max_body_bytes"]) ].

(** [x in names] for a list of string literals. *)
Definition in_strs (x : pyval) (names : list string) : bool :=
  existsb (fun s => eq_str s x) names.

Fixpoint schemas_get (table : list (string * plugin_schema)) (name : string)
  : option plugin_schema :=
  match table with
  | [] => None
  | (n, sc) :: rest =>
      if String.eqb name n then Some sc else schemas_get rest name
  end.

(** [PLUGIN_SCHEMAS.get(plugin_type, {}).get('required', [])].  The lookup
    runs only after [plugin_type in SUPPORTED_PLUGINS] held, so the key is a
    string. *)
Definition schema_required (plugin_type : pyval) : list string :=
  match plugin_type with
  | VStr name =>
      match schemas_get PLUGIN_SCHEMAS name with
      | Some sc => required sc
      | None => []
      end
  | _ => []
  end.

(** The result [validate_config] returns: [{'valid': ..., 'errors': ...}]. *)
Record ValidationResult : Type := mk_result
  { valid : bool;
    errors : list string }.

Definition default_endpoint : pyval :=
  VDict [ (VStr "name", VStr "default");
          (VStr "url", VStr "http://localhost:8000/v1/chat/completions") ].

Section Core.

(** [str()] of a float, a list or a dict: the text Python prints for
    them.  For a list or a dict it raises when an element cannot be
    rendered ([ValueError] for an [int] over the digit limit,
    [RecursionError] for a nesting too deep). *)
Variable py_repr : pyval -> result string.

(** [yaml.dump(config, default_flow_style=False, sort_keys=False)], which
    raises on the documents it cannot serialise. *)
Variable yaml_dump : pyval -> result string.

(** What [f"{x}"] splices in. *)
Definition format_value (x : pyval) : result string :=
  match x with
  | VStr s => Ok s
  | VInt n => str_of_int n
  | VBool b => Ok (if b then "True" else "False")
  | VNone => Ok "None"
  | VFloat _ | VList _ | VDict _ => py_repr x
  end.

(** *** validate_plugin *)

(** Lines 183-185: every required field must be a key of [config]. *)
Definition check_required (plugin_type config : pyval) (errors : list string)
  : result (list string) :=
  for_each
    (fun field errors =>
       present <- py_contains field config ;;
       if negb present
       then
         type_text <- format_value plugin_type ;;
         Ok (append errors
               ("Plugin '" ++ type_text
                ++ "' missing required field: " ++ field))
       else Ok errors)
    (schema_required plugin_type) errors.

(** Lines 188-189. *)
Definition check_enabled (plugin_type config : pyval) (errors : list string)
  : result (list string) :=
  present <- py_contains "enabled" config ;;
  bad <- and_then present
           (v <- py_getitem config "enabled" ;; Ok (negb (is_bool v))) ;;
  if bad
  then
    type_text <- format_value plugin_type ;;
    Ok (append errors
          ("Plugin '" ++ type_text ++ "': 'enabled' must be a boolean"))
  else Ok errors.

(** Lines 191-194: the value checked is
    [config.get('threshold') or config.get('similarity_threshold')]. *)
Definition check_threshold (plugin_type config : pyval) (errors : list string)
  : result (list string) :=
  has_threshold <- py_contains "threshold" config ;;
  present <- or_else has_threshold
               (py_contains "similarity_threshold" config) ;;
  if present then
    first <- py_get config "threshold" VNone ;;
    threshold <- (if py_truthy first then Ok first
                  else py_get config "similarity_threshold" VNone) ;;
    bad <- or_else (negb (is_number threshold))
             (below <- py_lt threshold 0 ;;
              or_else below (py_gt threshold 1)) ;;
    if bad
    then
      type_text <- format_value plugin_type ;;
      Ok (append errors
            ("Plugin '" ++ type_text
             ++ "': threshold must be between 0.0 and 1.0"))
    else Ok errors
  else Ok errors.

(** Lines 196-198. *)
Definition check_ttl_seconds (plugin_type config : pyval)
           (errors : list string) : result (list string) :=
  present <- py_contains "ttl_seconds" config ;;
  if present then
    v <- py_getitem config "ttl_seconds" ;;
    bad <- or_else (negb (is_int v))
             (v' <- py_getitem config "ttl_seconds" ;; py_lt v' 0) ;;
    if bad
    then
      type_text <- format_value plugin_type ;;
      Ok (append errors
            ("Plugin '" ++ type_text
             ++ "': ttl_seconds must be a non-negative integer"))
    else Ok errors
  else Ok errors.

(** Lines 200-202. *)
Definition check_max_records (plugin_type config : pyval)
           (errors : list string) : result (list string) :=
  present <- py_contains "max_records" config ;;
  if present then
    v <- py_getitem config "max_records" ;;
    bad <- or_else (negb (is_int v))
             (v' <- py_getitem config "max_records" ;; py_le v' 0) ;;
    if bad
    then
      type_text <- format_value plugin_type ;;
      Ok (append errors
            ("Plugin '" ++ type_text
             ++ "': max_records must be a positive integer"))
    else Ok errors
  else Ok errors.

(** Lines 204-205. *)
Definition check_mode (plugin_type config : pyval) (errors : list string)
  : result (list string) :=
  present <- py_contains "mode" config ;;
  bad <- and_then present
           (m <- py_getitem config "mode" ;;
            Ok (negb (in_strs m ["replace"; "insert"]))) ;;
  if bad
  then
    type_text <- format_value plugin_type ;;
    Ok (append errors
          ("Plugin '" ++ type_text
           ++ "': mode must be 'replace' or 'insert'"))
  else Ok errors.

(** Lines 182-207: the checks on the configuration, in order. *)
Definition check_configuration (plugin_type config : pyval)
           (errors : list string) : result (list string) :=
  errors <- check_required plugin_type config errors ;;
  errors <- check_enabled plugin_type config errors ;;
  errors <- check_threshold plugin_type config errors ;;
  errors <- check_ttl_seconds plugin_type config errors ;;
  errors <- check_max_records plugin_type config errors ;;
  errors <- check_mode plugin_type config errors ;;
  Ok errors.

Definition validate_plugin (plugin : pyval) : result (list string) :=
  let errors := [] in
  has_type <- py_contains "type" plugin ;;
  if negb has_type then Ok (append errors "Plugin missing 'type' field") else
  plugin_type <- py_getitem plugin "type" ;;
  if negb (in_strs plugin_type SUPPORTED_PLUGINS)
  then
    type_text <- format_value plugin_type ;;
    Ok (append errors ("Unsupported plugin type: " ++ type_text))
  else
  has_configuration <- py_contains "configuration" plugin ;;
  if negb has_configuration
  then
    type_text <- format_value plugin_type ;;
    Ok (append errors
          ("Plugin '" ++ type_text ++ "' missing 'configuration' field"))
  else
  config <- py_getitem plugin "configuration" ;;
  check_configuration plugin_type config errors.

(** *** validate_config *)

(** Lines 230-233, the body of the loop over a listener's endpoints. *)
Definition check_endpoint (i j : nat) (endpoint : pyval)
           (errors : list string) : result (list string) :=
  has_name <- py_contains "name" endpoint ;;
  let errors :=
    if negb has_name
    then append errors
           ("Listener " ++ str_of_nat i ++ ", endpoint " ++ str_of_nat j
            ++ " missing 'name' field")
    else errors in
  has_url <- py_contains "url" endpoint ;;
  let errors :=
    if negb has_url
    then append errors
           ("Listener " ++ str_of_nat i ++ ", endpoint " ++ str_of_nat j
            ++ " missing 'url' field")
    else errors in
  Ok errors.

(** Lines 223-233, the body of the loop over the listeners. *)
Definition check_listener (i : nat) (listener : pyval)
           (errors : list string) : result (list string) :=
  has_port <- py_contains "port" listener ;;
  errors <- (if negb has_port
             then Ok (append errors
                        ("Listener " ++ str_of_nat i
                         ++ " missing 'port' field"))
             else
               port <- py_getitem listener "port" ;;
               bad <- or_else (negb (is_int port))
                        (port' <- py_getitem listener "port" ;;
                         py_le port' 0) ;;
               if bad
               then Ok (append errors
                          ("Listener " ++ str_of_nat i
                           ++ ": port must be a positive integer"))
               else Ok errors) ;;
  has_endpoints <- py_contains "endpoints" listener ;;
  if has_endpoints then
    endpoints <- py_getitem listener "endpoints" ;;
    items <- py_iter endpoints ;;
    for_enumerate (check_endpoint i) 0 items errors
  else Ok errors.

(** Lines 245-247, the body of the loop over a decision's plugins. *)
Definition check_plugin (i : nat) (plugin : pyval) (errors : list string)
  : result (list string) :=
  plugin_errors <- validate_plugin plugin ;;
  Ok (extend errors
        (map (fun e => "Decision " ++ str_of_nat i ++ ": " ++ e)
             plugin_errors)).

(** Lines 238-247, the body of the loop over the decisions. *)
Definition check_decision (i : nat) (decision : pyval)
           (errors : list string) : result (list string) :=
  has_name <- py_contains "name" decision ;;
  let errors :=
    if negb has_name
    then append errors
           ("Decision " ++ str_of_nat i ++ " missing 'name' field")
    else errors in
  has_endpoint <- py_contains "endpoint" decision ;;
  let errors :=
    if negb has_endpoint
    then append errors
           ("Decision " ++ str_of_nat i ++ " missing 'endpoint' field")
    else errors in
  has_plugins <- py_contains "plugins" decision ;;
  if has_plugins then
    plugins <- py_getitem decision "plugins" ;;
    items <- py_iter plugins ;;
    for_each (check_plugin i) items errors
  else Ok errors.

Definition validate_config (config : pyval) : result ValidationResult :=
  let errors := [] in
  has_version <- py_contains "version" config ;;
  let errors :=
    if negb has_version
    then append errors "Configuration missing 'version' field"
    else errors in
  has_listeners <- py_contains "listeners" config ;;
  errors <- (if negb has_listeners
             then Ok (append errors
                        "Configuration missing 'listeners' field")
             else
               listeners <- py_getitem config "listeners" ;;
               items <- py_iter listeners ;;
               for_enumerate check_listener 0 items errors) ;;
  has_decisions <- py_contains "decisions" config ;;
  errors <- (if has_decisions then
               decisions <- py_getitem config "decisions" ;;
               items <- py_iter decisions ;;
               for_enumerate check_decision 0 items errors
             else Ok errors) ;;
  Ok {| valid := Nat.eqb (List.length errors) 0; errors := errors |}.

(** *** generate_config *)

(** Lines 285-293, the body of the loop over the endpoints. *)
Definition make_decision (plugins endpoint : pyval) (decisions : list pyval)
  : result (list pyval) :=
  name <- py_getitem endpoint "name" ;;
  name_text <- format_value name ;;
  name' <- py_getitem endpoint "name" ;;
  let decision :=
    [ (VStr "name", VStr (name_text ++ "_route"));
      (VStr "endpoint", name') ] in
  let decision :=
    if py_truthy plugins then dict_set decision "plugins" plugins
    else decision in
  Ok (append decisions (VDict decision)).

(** Lines 257-295: the document [generate_config] builds before it
    serialises it. *)
Definition generate_document (params : pyval) : result pyval :=
  version <- py_get params "version" (VStr "1.0") ;;
  let config := [(VStr "version", version)] in
  let listeners := [] in
  port <- py_get params "port" (VInt 8888) ;;
  endpoints <- py_get params "endpoints" (VList []) ;;
  let endpoints :=
    if negb (py_truthy endpoints) then VList [default_endpoint]
    else endpoints in
  let listener :=
    VDict [(VStr "port", port); (VStr "endpoints", endpoints)] in
  let listeners := append listeners listener in
  let config := dict_set config "listeners" (VList listeners) in
  let decisions := [] in
  plugins <- py_get params "plugins" (VList []) ;;
  items <- py_iter endpoints ;;
  decisions <- for_each (make_decision plugins) items decisions ;;
  let config := dict_set config "decisions" (VList decisions) in
  Ok (VDict config).

Definition generate_config (params : pyval) : result string :=
  config <- generate_document params ;;
  yaml_dump config.

End Core.

(** ** Vocabulary of the properties *)

(** [x] is a mapping (a dict). *)
Definition is_mapping (x : pyval) : bool :=
  match x with
  | VDict _ => true
  | _ => false
  end.

(** The value of field [k] of a mapping, if it has one. *)
Definition field (k : string) (x : pyval) : option pyval :=
  match x with
  | VDict items => dict_get items k
  | _ => None
  end.

Definition has_field (k : string) (x : pyval) : bool :=
  match field k x with
  | Some _ => true
  | None => false
  end.

(** Field [k] of [x], when present, satisfies [p]. *)
Definition field_is (k : string) (p : pyval -> bool) (x : pyval) : bool :=
  match field k x with
  | Some v => p v
  | None => true
  end.

(** [x] is a sequence (a list) whose entries all satisfy [p]. *)
Definition is_sequence_of (p : pyval -> bool) (x : pyval) : bool :=
  match x with
  | VList items => forallb p items
  | _ => false
  end.

(** [x] can be spliced into a message: a string, [None], a boolean, a
    float, an [int] within the digit limit, a list or a dict that Python
    can print. *)
Definition formattable (py_repr : pyval -> result string) (x : pyval)
  : bool :=
  match format_value py_repr x with
  | Ok _ => true
  | Raise _ => false
  end.

(** The container shapes of the data model: a document is a mapping whose
    listeners and decisions are sequences of mappings, and so on down to a
    plugin's configuration; a plugin's type is a value that can be
    spliced into a message.  Nothing is asked of which keys are present,
    nor of the other scalars. *)
Definition plugin_shaped (py_repr : pyval -> result string) (x : pyval)
  : bool :=
  is_mapping x
  && field_is "type" (formattable py_repr) x
  && field_is "configuration" is_mapping x.

Definition decision_shaped (py_repr : pyval -> result string) (x : pyval)
  : bool :=
  is_mapping x
  && field_is "plugins" (is_sequence_of (plugin_shaped py_repr)) x.

Definition listener_shaped (x : pyval) : bool :=
  is_mapping x && field_is "endpoints" (is_sequence_of is_mapping) x.

Definition document_shaped (py_repr : pyval -> result string) (x : pyval)
  : bool :=
  is_mapping x
  && field_is "listeners" (is_sequence_of listener_shaped) x
  && field_is "decisions" (is_sequence_of (decision_shaped py_repr)) x.

(** An endpoint mapping whose [name] can be spliced into a decision's
    name. *)
Definition has_usable_name (py_repr : pyval -> result string) (x : pyval)
  : bool :=
  match field "name" x with
  | Some name => formattable py_repr name
  | None => false
  end.

(** The parameter bags the generator serves: a mapping whose [endpoints],
    when supplied and not empty, is a sequence of mappings with a usable
    [name]. *)
Definition params_shaped (py_repr : pyval -> result string) (x : pyval)
  : bool :=
  is_mapping x
  && field_is "endpoints"
       (fun e => negb (py_truthy e)
                 || is_sequence_of (has_usable_name py_repr) e) x.

(** The rational a double denotes; none for a NaN or an infinity. *)
Definition float_value (f : spec_float) : option Q :=
  match f with
  | S754_zero _ => Some 0%Q
  | S754_finite neg m e =>
      let sm := if neg then Z.neg m else Z.pos m in
      Some (match e with
            | Z.neg p => Qmake sm (Pos.pow 2 p)
            | _ => inject_Z (sm * 2 ^ e)
            end)
  | S754_infinity _ | S754_nan => None
  end.

(** The rational a number denotes. *)
Definition num_value (x : pyval) : option Q :=
  match x with
  | VBool b => Some (if b then 1%Q else 0%Q)
  | VInt n => Some (inject_Z n)
  | VFloat f => float_value f
  | _ => None
  end.

(** [x] is a number of the closed interval [0.0, 1.0]. *)
Definition in_unit_interval (x : pyval) : Prop :=
  exists q, num_value x = Some q /\ (0 <= q)%Q /\ (q <= 1)%Q.

Definition is_nan (x : pyval) : bool :=
  match x with
  | VFloat S754_nan => true
  | _ => false
  end.

(** [x] is a number that compares, and lies outside [0.0, 1.0]. *)
Definition outside_unit_interval (x : pyval) : Prop :=
  is_number x = true /\ is_nan x = false /\ ~ in_unit_interval x.

(** The threshold-range defect is the one whose text says so. *)
Definition is_threshold_defect (e : string) : bool :=
  str_contains "threshold must be between 0.0 and 1.0" e.

(** No message of the other checks reads as a threshold defect. *)
Definition benign (e : string) : Prop := is_threshold_defect e = false.

Definition count_threshold_defects (errs : list string) : nat :=
  List.length (filter is_threshold_defect errs).

(** A dict without key [k]. *)
Definition dict_remove (items : list (pyval * pyval)) (k : string)
  : list (pyval * pyval) :=
  filter (fun kv => negb (eq_str k (fst kv))) items.

(** Decision [decision] is the route the generator derives from
    [endpoint]: named after it, referring to it, and carrying [plugins]
    when that is truthy. *)
Definition routes_to (py_repr : pyval -> result string)
           (plugins endpoint decision : pyval) : Prop :=
  exists name name_text,
    field "name" endpoint = Some name
    /\ format_value py_repr name = Ok name_text
    /\ field "name" decision = Some (VStr (name_text ++ "_route"))
    /\ field "endpoint" decision = Some name
    /\ field "plugins" decision
       = if py_truthy plugins then Some plugins else None.

(** A dict with string keys, as a literal. *)
Definition dict_of (fields : list (string * pyval)) : pyval :=
  VDict (map (fun kv => (VStr (fst kv), snd kv)) fields).

(** A rendering of floats and containers, and a serialiser, for the
    concrete examples; no example below splices a float or a container
    in. *)
Definition repr_placeholder (x : pyval) : result string := Ok "<repr>".

Definition yaml_placeholder (x : pyval) : result string := Ok "<yaml>".

(** The plugin of the specification's threshold example, with the
    threshold at the lower end of the interval. *)
Definition zero_threshold_plugin : pyval :=
  dict_of [ ("type", VStr "jailbreak");
            ("configuration",
             dict_of [ ("enabled", VBool true);
                       ("threshold", VFloat (S754_zero false)) ]) ].

(** *** Sample inputs *)

(** Documents whose containers have the wrong type: [listeners] is not a
    sequence; a listener, a decision, a plugin, a plugin's configuration
    is not a mapping. *)
Definition doc_listeners_not_sequence : pyval :=
  dict_of [("version", VStr "1.0"); ("listeners", VInt 8888)].

Definition doc_listener_not_mapping : pyval :=
  dict_of [("version", VStr "1.0"); ("listeners", VList [VInt 8888])].

Definition doc_decision_not_mapping : pyval :=
  dict_of [ ("version", VStr "1.0"); ("listeners", VList []);
            ("decisions", VList [VNone]) ].

Definition doc_plugin_not_mapping : pyval :=
  dict_of [ ("version", VStr "1.0"); ("listeners", VList []);
            ("decisions",
             VList [dict_of [ ("name", VStr "r"); ("endpoint", VStr "e");
                              ("plugins", VList [VInt 1]) ]]) ].

Definition doc_configuration_not_mapping : pyval :=
  dict_of [ ("version", VStr "1.0"); ("listeners", VList []);
            ("decisions",
             VList [dict_of [ ("name", VStr "r"); ("endpoint", VStr "e");
                              ("plugins",
                               VList
                                 [dict_of [ ("type", VStr "jailbreak");
                                            ("configuration", VNone) ]]) ]]) ].

(** A document of the right shapes with keys missing at every level. *)
Definition doc_with_missing_keys : pyval :=
  dict_of [ ("listeners",
             VList [ dict_of [];
                     dict_of [ ("port", VInt 0);
                               ("endpoints", VList [dict_of []]) ] ]);
            ("decisions",
             VList [dict_of [("plugins", VList [dict_of []])]]) ].

(** Parameter bags: an endpoint without a [name], an endpoint that is not
    a mapping, an empty endpoint list beside a plugin, and the two
    endpoints and one plugin of the specification's example. *)
Definition cache_plugin : pyval :=
  dict_of [ ("type", VStr "semantic-cache");
            ("configuration", dict_of [("enabled", VBool true)]) ].

Definition params_endpoint_without_name : pyval :=
  dict_of [("endpoints", VList [dict_of [("url", VStr "u1")]])].

Definition params_endpoint_not_mapping : pyval :=
  dict_of [("endpoints", VList [VStr "a"])].

Definition params_no_endpoints_one_plugin : pyval :=
  dict_of [("endpoints", VList []); ("plugins", VList [cache_plugin])].

Definition params_two_endpoints_one_plugin : pyval :=
  dict_of [ ("endpoints",
             VList [ dict_of [("name", VStr "a"); ("url", VStr "u1")];
                     dict_of [("name", VStr "b"); ("url", VStr "u2")] ]);
            ("plugins", VList [cache_plugin]) ].

(** The double 0.5, and a plugin whose [threshold] is 0.5 beside a
    [similarity_threshold] of 7. *)
Definition one_half : spec_float :=
  S754_finite false 4503599627370496 (-53).

Definition shadowing_plugin : pyval :=
  dict_of [ ("type", VStr "pii");
            ("configuration",
             dict_of [ ("enabled", VBool true);
                       ("threshold", VFloat one_half);
                       ("similarity_threshold", VInt 7) ]) ].

(** A plugin whose [threshold] is a NaN. *)
Definition nan_threshold_plugin : pyval :=
  dict_of [ ("type", VStr "jailbreak");
            ("configuration",
             dict_of [ ("enabled", VBool true);
                       ("threshold", VFloat S754_nan) ]) ].

(** ** Well-formedness, as the validator judges it *)

Definition value_or_none (o : option pyval) : pyval :=
  match o with
  | Some v => v
  | None => VNone
  end.

(** The integer an [int] (or a [bool], which is one) stands for. *)
Definition int_of (v : pyval) : option Z :=
  match v with
  | VInt n => Some n
  | VBool b => Some (if b then 1 else 0)
  | _ => None
  end.

(** The values the range test lets through: the numbers of [0.0, 1.0],
    and a NaN. *)
Definition threshold_accepted (v : pyval) : bool :=
  match num_value v with
  | Some q => Qle_bool 0 q && Qle_bool q 1
  | None => is_nan v
  end.

(** With neither key there is nothing to check; otherwise the value looked
    at is [threshold] when it is present and truthy, and else
    [similarity_threshold] ([None] when that is absent). *)
Definition threshold_ok (c : list (pyval * pyval)) : bool :=
  match dict_get c "threshold", dict_get c "similarity_threshold" with
  | None, None => true
  | first, second =>
      threshold_accepted
        (if py_truthy (value_or_none first) then value_or_none first
         else value_or_none second)
  end.

Definition enabled_ok (c : list (pyval * pyval)) : bool :=
  match dict_get c "enabled" with
  | Some v => is_bool v
  | None => true
  end.

Definition ttl_seconds_ok (c : list (pyval * pyval)) : bool :=
  match dict_get c "ttl_seconds" with
  | Some v => match int_of v with Some n => 0 <=? n | None => false end
  | None => true
  end.

Definition max_records_ok (c : list (pyval * pyval)) : bool :=
  match dict_get c "max_records" with
  | Some v => match int_of v with Some n => 0 <? n | None => false end
  | None => true
  end.

Definition mode_ok (c : list (pyval * pyval)) : bool :=
  match dict_get c "mode" with
  | Some v => eq_str "replace" v || eq_str "insert" v
  | None => true
  end.

Definition required_ok (t : string) (c : list (pyval * pyval)) : bool :=
  forallb (fun f => match dict_get c f with Some _ => true | None => false end)
          (schema_required (VStr t)).

(** A configuration mapping no check of [validate_plugin] objects to. *)
Definition configuration_ok (t : string) (c : list (pyval * pyval)) : bool :=
  required_ok t c && enabled_ok c && threshold_ok c
  && ttl_seconds_ok c && max_records_ok c && mode_ok c.

Definition plugin_ok (p : pyval) : bool :=
  match field "type" p, field "configuration" p with
  | Some (VStr t), Some (VDict c) =>
      in_strs (VStr t) SUPPORTED_PLUGINS && configuration_ok t c
  | _, _ => false
  end.

Definition endpoint_ok (e : pyval) : bool :=
  has_field "name" e && has_field "url" e.

Definition port_ok (v : pyval) : bool :=
  match int_of v with
  | Some n => 0 <? n
  | None => false
  end.

(** Every entry of an optional sequence satisfies [p]; [absent] is the
    verdict when the sequence is missing. *)
Definition all_of (p : pyval -> bool) (o : option pyval) (absent : bool)
  : bool :=
  match o with
  | None => absent
  | Some (VList items) => forallb p items
  | Some _ => false
  end.

Definition listener_ok (l : pyval) : bool :=
  match field "port" l with Some v => port_ok v | None => false end
  && all_of endpoint_ok (field "endpoints" l) true.

Definition decision_ok (d : pyval) : bool :=
  has_field "name" d && has_field "endpoint" d
  && all_of plugin_ok (field "plugins" d) true.

Definition document_ok (doc : pyval) : bool :=
  has_field "version" doc
  && all_of listener_ok (field "listeners" doc) false
  && all_of decision_ok (field "decisions" doc) true.

(** *** What the generator works from *)

(** The endpoints: the supplied value, or the synthetic default when none
    or a falsy one is supplied. *)
Definition endpoints_in_use (items : list (pyval * pyval)) : pyval :=
  match dict_get items "endpoints" with
  | Some v => if py_truthy v then v else VList [default_endpoint]
  | None => VList [default_endpoint]
  end.

(** The plugins attached to every decision: the supplied value when it is
    truthy. *)
Definition plugins_in_use (items : list (pyval * pyval)) : option pyval :=
  match dict_get items "plugins" with
  | Some v => if py_truthy v then Some v else None
  | None => None
  end.

Definition port_in_use (items : list (pyval * pyval)) : pyval :=
  match dict_get items "port" with
  | Some v => v
  | None => VInt 8888
  end.

Definition version_in_use (items : list (pyval * pyval)) : pyval :=
  match dict_get items "version" with
  | Some v => v
  | None => VStr "1.0"
  end.

(** The decision derived from an endpoint whose name [name] is spliced
    in as [name_text]. *)
Definition route_for (items : list (pyval * pyval))
           (name : pyval) (name_text : string) : pyval :=
  VDict ([ (VStr "name", VStr (name_text ++ "_route"));
           (VStr "endpoint", name) ]
         ++ match plugins_in_use items with
            | Some plugins => [(VStr "plugins", plugins)]
            | None => []
            end)%list.

(** ** The template catalog and the HTTP handlers *)

(** The doubles 0.92, 0.8 and 0.7. *)
Definition float_0_92 : spec_float :=
  S754_finite false 8286623314361713 (-53).

Definition float_0_8 : spec_float :=
  S754_finite false 7205759403792794 (-53).

Definition float_0_7 : spec_float :=
  S754_finite false 6305039478318694 (-53).

Definition localhost_endpoint (name url : string) : pyval :=
  dict_of [("name", VStr name); ("url", VStr url)].

Definition CONFIGURATION_TEMPLATES : pyval :=
  dict_of
    [ ("basic",
       dict_of
         [ ("name", VStr "Basic Configuration");
           ("description", VStr "Simple single-endpoint configuration");
           ("config",
            dict_of
              [ ("version", VStr "1.0");
                ("port", VInt 8888);
                ("endpoints",
                 VList [ localhost_endpoint "default"
                           "http://localhost:8000/v1/chat/completions" ]) ]) ]);
      ("cached",
       dict_of
         [ ("name", VStr "Cached Configuration");
           ("description",
            VStr "Configuration with semantic caching enabled");
           ("config",
            dict_of
              [ ("version", VStr "1.0");
                ("port", VInt 8888);
                ("endpoints",
                 VList [ localhost_endpoint "default"
                           "http://localhost:8000/v1/chat/completions" ]);
                ("plugins",
                 VList
                   [ dict_of
                       [ ("type", VStr "semantic-cache");
                         ("configuration",
                          dict_of
                            [ ("enabled", VBool true);
                              ("similarity_threshold", VFloat float_0_92);
                              ("ttl_seconds", VInt 3600) ]) ] ]) ]) ]);
      ("secure",
       dict_of
         [ ("name", VStr "Secure Configuration");
           ("description",
            VStr "Configuration with security plugins enabled");
           ("config",
            dict_of
              [ ("version", VStr "1.0");
                ("port", VInt 8888);
                ("endpoints",
                 VList [ localhost_endpoint "default"
                           "http://localhost:8000/v1/chat/completions" ]);
                ("plugins",
                 VList
                   [ dict_of
                       [ ("type", VStr "jailbreak");
                         ("configuration",
                          dict_of [ ("enabled", VBool true);
                                    ("threshold", VFloat float_0_8) ]) ];
                     dict_of
                       [ ("type", VStr "pii");
                         ("configuration",
                          dict_of
                            [ ("enabled", VBool true);
                              ("threshold", VFloat float_0_7) ]) ] ]) ]) ]);
      ("multi-model",
       dict_of
         [ ("name", VStr "Multi-Model Configuration");
           ("description",
            VStr "Configuration with multiple model endpoints");
           ("config",
            dict_of
              [ ("version", VStr "1.0");
                ("port", VInt 8888);
                ("endpoints",
                 VList [ localhost_endpoint "gpt4"
                           "http://localhost:8001/v1/chat/completions";
                         localhost_endpoint "gpt3"
                           "http://localhost:8002/v1/chat/completions" ]);
                ("plugins",
                 VList
                   [ dict_of
                       [ ("type", VStr "semantic-cache");
                         ("configuration",
                          dict_of
                            [ ("enabled", VBool true);
                              ("similarity_threshold",
                               VFloat float_0_92) ]) ] ]) ]) ]) ].

(** What a handler's body can raise: a Python exception of the functions
    above, or the parser's [yaml.YAMLError] with its message. *)
Inductive raised : Type :=
| PyError (e : exn)
| YAMLError (message : string).

(** What a handler returns: [jsonify(body), status], or
    [Response(text, mimetype='text/yaml'), status], or, from its
    [except Exception as e] clause, [jsonify({'error': str(e)}), 500],
    kept as the exception it reports. *)
Inductive response : Type :=
| JsonResponse (body : pyval) (status : Z)
| YamlResponse (text : string) (status : Z)
| ErrorResponse (cause : raised).

(** The double quote character, as a string. *)
Definition dquote : string :=
  String (Ascii false true false false false true false false) EmptyString.

(** The dict [validate_config] returns, as the value [jsonify] is given. *)
Definition result_value (res : ValidationResult) : pyval :=
  dict_of [ ("valid", VBool (valid res));
            ("errors", VList (map VStr (errors res))) ].

(** A document that is no container: [None] (what an empty text parses
    to), a boolean or a number. *)
Definition is_scalar (x : pyval) : bool :=
  match x with
  | VNone | VBool _ | VInt _ | VFloat _ => true
  | _ => false
  end.

Section Handlers.

Variable py_repr : pyval -> result string.
Variable yaml_dump : pyval -> result string.

(** [yaml.safe_load]: the parsed document, or what it raises. *)
Variable safe_load : pyval -> pyval + raised.

(** The [try: ... except Exception as e:] around a handler's body. *)
Definition catching (body : result response) : response :=
  match body with
  | Ok r => r
  | Raise e => ErrorResponse (PyError e)
  end.

Definition health : response :=
  JsonResponse (dict_of [("status", VStr "healthy")]) 200.

Definition generate (params : pyval) : response :=
  catching
    (if negb (py_truthy params)
     then Ok (JsonResponse
                (dict_of [("error", VStr "Request body is required")]) 400)
     else
       config_yaml <- generate_config py_repr yaml_dump params ;;
       match safe_load (VStr config_yaml) with
       | inr cause => Ok (ErrorResponse cause)
       | inl config_dict =>
           validation_result <- validate_config py_repr config_dict ;;
           if negb (valid validation_result)
           then Ok (JsonResponse
                      (dict_of
                         [ ("error",
                            VStr "Generated configuration is invalid");
                           ("validation_errors",
                            VList (map VStr (errors validation_result))) ])
                      400)
           else Ok (YamlResponse config_yaml 200)
       end).

Definition validate (data : pyval) : response :=
  catching
    (missing <- or_else (negb (py_truthy data))
                  (present <- py_contains "config" data ;;
                   Ok (negb present)) ;;
     if missing
     then Ok (JsonResponse
                (dict_of
                   [ ("error",
                      VStr ("Request must include " ++ dquote ++ "config"
                            ++ dquote ++ " field")) ])
                400)
     else
       config_str <- py_getitem data "config" ;;
       match safe_load config_str with
       | inr (YAMLError message) =>
           Ok (JsonResponse
                 (dict_of
                    [ ("valid", VBool false);
                      ("errors",
                       VList [VStr ("Invalid YAML: " ++ message)]) ])
                 200)
       | inr (PyError e) => Raise e
       | inl config_dict =>
           result <- validate_config py_repr config_dict ;;
           Ok (JsonResponse (result_value result) 200)
       end).

Definition templates : response :=
  JsonResponse CONFIGURATION_TEMPLATES 200.

Definition get_template (template_name : string) : response :=
  catching
    (known <- py_contains template_name CONFIGURATION_TEMPLATES ;;
     if negb known
     then Ok (JsonResponse
                (dict_of
                   [ ("error",
                      VStr ("Template " ++ dquote ++ template_name
                            ++ dquote ++ " not found")) ])
                404)
     else
       template <- py_getitem CONFIGURATION_TEMPLATES template_name ;;
       config <- py_getitem template "config" ;;
       config_yaml <- generate_config py_repr yaml_dump config ;;
       Ok (YamlResponse config_yaml 200)).

End Handlers.

(** *** More sample inputs *)

(** The double 1.5, and the plugin of the specification's threshold
    example. *)
Definition float_1_5 : spec_float :=
  S754_finite false 6755399441055744 (-52).

Definition high_threshold_plugin : pyval :=
  dict_of [ ("type", VStr "jailbreak");
            ("configuration",
             dict_of [ ("enabled", VBool true);
                       ("threshold", VFloat float_1_5) ]) ].

(** A plugin whose only threshold is a [similarity_threshold] of 0.0. *)
Definition zero_similarity_plugin : pyval :=
  dict_of [ ("type", VStr "semantic-cache");
            ("configuration",
             dict_of [ ("enabled", VBool true);
                       ("similarity_threshold",
                        VFloat (S754_zero false)) ]) ].

(** The fields of [params_two_endpoints_one_plugin]. *)
Definition two_endpoints_one_plugin_fields : list (pyval * pyval) :=
  [ (VStr "endpoints",
     VList [ dict_of [("name", VStr "a"); ("url", VStr "u1")];
             dict_of [("name", VStr "b"); ("url", VStr "u2")] ]);
    (VStr "plugins", VList [cache_plugin]) ].

(** The document generated from them. *)
Definition two_endpoints_one_plugin_document : pyval :=
  match generate_document repr_placeholder
          (VDict two_endpoints_one_plugin_fields) with
  | Ok doc => doc
  | Raise _ => VNone
  end.

(** An integer of 4301 digits, as a YAML or JSON document can hold, in
    the place of a plugin's type and of an endpoint's name. *)
Definition huge_int : pyval := VInt (10 ^ INT_MAX_STR_DIGITS).

Definition plugin_of_huge_type : pyval := dict_of [("type", huge_int)].

Definition params_endpoint_of_huge_name : pyval :=
  dict_of [("endpoints", VList [dict_of [("name", huge_int)]])].

(** The text "a", e-acute, "b" in UTF-8: three characters in four
    bytes. *)
Definition e_acute : string :=
  String (ascii_of_nat 195) (String (ascii_of_nat 169) EmptyString).

Definition text_of_three_characters : string := "a" ++ e_acute ++ "b".

(** A parser that reads every text as [doc]. *)
Definition parse_as (doc : pyval) (text : pyval) : pyval + raised :=
  inl doc.

(** *** The defects of a document, as the rules list them *)

(** The defect for a field that a mapping lacks. *)
Definition missing_field (k : string) (x : pyval) (message : string)
  : list string :=
  if has_field k x then [] else [message].

(** The defects of the entries of a sequence, each judged with its
    index, in order. *)
Fixpoint defects_from {A : Type} (f : nat -> A -> list string)
         (i : nat) (l : list A) : list string :=
  match l with
  | [] => []
  | x :: rest => (f i x ++ defects_from f (S i) rest)%list
  end.

(** Those of an optional sequence; [absent] when it is missing. *)
Definition sequence_defects (f : nat -> pyval -> list string)
           (o : option pyval) (absent : list string) : list string :=
  match o with
  | None => absent
  | Some (VList items) => defects_from f 0 items
  | Some _ => []
  end.

Definition endpoint_defects (i j : nat) (e : pyval) : list string :=
  List.app
    (missing_field "name" e
       ("Listener " ++ str_of_nat i ++ ", endpoint " ++ str_of_nat j
        ++ " missing 'name' field"))
    (missing_field "url" e
       ("Listener " ++ str_of_nat i ++ ", endpoint " ++ str_of_nat j
        ++ " missing 'url' field")).

Definition port_defects (i : nat) (l : pyval) : list string :=
  match field "port" l with
  | None => ["Listener " ++ str_of_nat i ++ " missing 'port' field"]
  | Some v =>
      if port_ok v then []
      else ["Listener " ++ str_of_nat i ++ ": port must be a positive integer"]
  end.

Definition listener_defects (i : nat) (l : pyval) : list string :=
  List.app (port_defects i l)
           (sequence_defects (endpoint_defects i) (field "endpoints" l) []).

(** What [validate_plugin] reports on a plugin. *)
Definition plugin_defects (py_repr : pyval -> result string) (p : pyval)
  : list string :=
  match validate_plugin py_repr p with
  | Ok errs => errs
  | Raise _ => []
  end.

(** The defects of a decision's plugins, each under the decision's
    index. *)
Definition plugins_defects (py_repr : pyval -> result string)
           (i : nat) (o : option pyval) : list string :=
  match o with
  | Some (VList plugins) =>
      flat_map
        (fun p => map (fun e => "Decision " ++ str_of_nat i ++ ": " ++ e)
                      (plugin_defects py_repr p))
        plugins
  | _ => []
  end.

Definition decision_defects (py_repr : pyval -> result string)
           (i : nat) (d : pyval) : list string :=
  List.app
    (missing_field "name" d
       ("Decision " ++ str_of_nat i ++ " missing 'name' field"))
    (List.app
       (missing_field "endpoint" d
          ("Decision " ++ str_of_nat i ++ " missing 'endpoint' field"))
       (plugins_defects py_repr i (field "plugins" d))).

Definition document_defects (py_repr : pyval -> result string)
           (doc : pyval) : list string :=
  (missing_field "version" doc "Configuration missing 'version' field"
   ++ sequence_defects listener_defects (field "listeners" doc)
        ["Configuration missing 'listeners' field"]
   ++ sequence_defects (decision_defects py_repr)
        (field "decisions" doc) [])%list.

(** A step that appends exactly [extra], which is empty exactly when
    [ok]. *)
Definition reports {A : Type} (extra : list A) (ok : bool)
           (step : list A -> result (list A)) : Prop :=
  (forall s, step s = Ok (s ++ extra)%list) /\ (extra = [] <-> ok = true).

(** The configuration keys [validate_plugin] reads. *)
Definition CHECKED_KEYS : list string :=
  [ "enabled"; "threshold"; "similarity_threshold";
    "ttl_seconds"; "max_records"; "mode" ].

(** A step that only appends, and appends nothing exactly when [ok]. *)
Definition judges {A : Type} (ok : bool)
           (step : list A -> result (list A)) : Prop :=
  exists extra,
    (forall s, step s = Ok (s ++ extra)%list) /\ (extra = [] <-> ok = true).

(** A step of a loop or of a sequence of checks that only appends: whatever
    list it is given, it returns it extended by the same messages, all of
    which satisfy [P]. *)
Definition emits {A : Type} (P : A -> Prop)
           (step : list A -> result (list A)) : Prop :=
  exists extra, Forall P extra /\ forall s, step s = Ok (s ++ extra)%list.

(** ** The error monad and the loops *)

Lemma bind_Ok_inv {A B : Type} (m : result A) (k : A -> result B) (b : B) :
  bind m k = Ok b -> exists a, m = Ok a /\ k a = Ok b.
Proof.
  destruct m as [a|e]; simpl; intros H; [eauto | discriminate].
Qed.

Ltac bind_inv H :=
  let a := fresh "a" in
  let E := fresh "E" in
  apply bind_Ok_inv in H; destruct H as (a & E & H).

Lemma emits_nothing {A : Type} (P : A -> Prop) : emits P (fun s => Ok s).
Proof.
  exists []. split; [constructor | intros s; now rewrite app_nil_r].
Qed.

Lemma emits_one {A : Type} (P : A -> Prop) (x : A) :
  P x -> emits P (fun s => Ok (append s x)).
Proof.
  intros Hx. exists [x]. split; [now repeat constructor | reflexivity].
Qed.

Lemma emits_bind {A : Type} (P : A -> Prop) (f g : list A -> result (list A)) :
  emits P f -> emits P g -> emits P (fun s => s' <- f s ;; g s').
Proof.
  intros (e1 & F1 & H1) (e2 & F2 & H2). exists (e1 ++ e2)%list. split.
  - apply Forall_app. now split.
  - intros s. rewrite H1. simpl. rewrite H2. now rewrite app_assoc.
Qed.

Lemma emits_ext {A : Type} (P : A -> Prop) (f g : list A -> result (list A)) :
  (forall s, f s = g s) -> emits P g -> emits P f.
Proof.
  intros Hfg (e & F & H). exists e. split; [exact F|].
  intros s. now rewrite Hfg.
Qed.

Lemma emits_let {A : Type} (P : A -> Prop) (h : list A -> list A)
      (g : list A -> result (list A)) :
  emits P (fun s => Ok (h s)) -> emits P g -> emits P (fun s => g (h s)).
Proof.
  intros Hh Hg. apply (emits_ext _ _ (fun s => s' <- Ok (h s) ;; g s')).
  - reflexivity.
  - now apply emits_bind.
Qed.

Lemma for_each_emits {A B : Type} (P : B -> Prop)
      (body : A -> list B -> result (list B)) (l : list A) :
  (forall x, In x l -> emits P (body x)) -> emits P (for_each body l).
Proof.
  induction l as [|x rest IH]; intros Hbody; simpl.
  - apply emits_nothing.
  - apply emits_bind.
    + apply Hbody. now left.
    + apply IH. intros y Hy. apply Hbody. now right.
Qed.

Lemma for_enumerate_emits {A B : Type} (P : B -> Prop)
      (body : nat -> A -> list B -> result (list B)) (l : list A) :
  (forall i x, In x l -> emits P (body i x)) ->
  forall i, emits P (for_enumerate body i l).
Proof.
  induction l as [|x rest IH]; intros Hbody i; simpl.
  - apply emits_nothing.
  - apply emits_bind.
    + apply Hbody. now left.
    + apply IH. intros j y Hy. apply Hbody. now right.
Qed.

(** ** Comparisons *)

Lemma py_compare_number (v : pyval) (k : Z) :
  is_number v = true -> exists c, py_compare v k = Ok c.
Proof.
  destruct v; simpl; intros H; try discriminate; eauto.
Qed.

Lemma is_int_number (v : pyval) : is_int v = true -> is_number v = true.
Proof. destruct v; simpl; congruence. Qed.

Lemma py_lt_number (v : pyval) (k : Z) :
  is_number v = true -> exists b, py_lt v k = Ok b.
Proof.
  intros H. destruct (py_compare_number v k H) as (c & E).
  unfold py_lt. rewrite E. simpl. eauto.
Qed.

Lemma py_gt_number (v : pyval) (k : Z) :
  is_number v = true -> exists b, py_gt v k = Ok b.
Proof.
  intros H. destruct (py_compare_number v k H) as (c & E).
  unfold py_gt. rewrite E. simpl. eauto.
Qed.

Lemma py_le_number (v : pyval) (k : Z) :
  is_number v = true -> exists b, py_le v k = Ok b.
Proof.
  intros H. destruct (py_compare_number v k H) as (c & E).
  unfold py_le. rewrite E. simpl. eauto.
Qed.

(** The guarded range test of line 193 never raises: the comparisons run
    only on a number. *)
Lemma range_test_total (v : pyval) :
  exists bad,
    or_else (negb (is_number v))
      (below <- py_lt v 0 ;; or_else below (py_gt v 1)) = Ok bad.
Proof.
  destruct (is_number v) eqn:N; simpl; [|eauto].
  destruct (py_lt_number v 0 N) as (b1 & ->).
  destruct (py_gt_number v 1 N) as (b2 & E2). simpl.
  destruct b1; simpl; eauto.
Qed.

Lemma int_test_total (v : pyval) (test : pyval -> Z -> result bool) :
  (forall x k, is_number x = true -> exists b, test x k = Ok b) ->
  exists bad, or_else (negb (is_int v)) (test v 0) = Ok bad.
Proof.
  intros Htest. destruct (is_int v) eqn:N; simpl; [|eauto].
  apply Htest. now apply is_int_number.
Qed.

(** ** The plugin checks on a mapping configuration *)

Section PluginChecks.

Variable py_repr : pyval -> result string.
Variable P : string -> Prop.
Variable t : string.
Variable c : list (pyval * pyval).

Lemma check_required_emits :
  (forall f, In f (schema_required (VStr t)) ->
             P ("Plugin '" ++ t ++ "' missing required field: " ++ f)) ->
  emits P (check_required py_repr (VStr t) (VDict c)).
Proof.
  intros HP. unfold check_required. apply for_each_emits.
  intros f Hf. simpl.
  destruct (dict_get c f); simpl.
  - apply emits_nothing.
  - apply emits_one. now apply HP.
Qed.

Lemma check_enabled_emits :
  P ("Plugin '" ++ t ++ "': 'enabled' must be a boolean") ->
  emits P (check_enabled py_repr (VStr t) (VDict c)).
Proof.
  intros HP. unfold check_enabled. simpl.
  destruct (dict_get c "enabled") as [v|]; simpl.
  - destruct (is_bool v); simpl;
      [apply emits_nothing | now apply emits_one].
  - apply emits_nothing.
Qed.

Lemma check_threshold_emits :
  P ("Plugin '" ++ t ++ "': threshold must be between 0.0 and 1.0") ->
  emits P (check_threshold py_repr (VStr t) (VDict c)).
Proof.
  intros HP. unfold check_threshold. simpl.
  set (first := match dict_get c "threshold" with
                | Some v => v | None => VNone end).
  set (second := match dict_get c "similarity_threshold" with
                 | Some v => v | None => VNone end).
  set (present := or_else _ _).
  assert (Hp : exists b, present = Ok b).
  { subst present. destruct (dict_get c "threshold"); simpl; eauto. }
  destruct Hp as (b & ->). simpl. destruct b; [|apply emits_nothing].
  set (threshold := if py_truthy first then Ok first else Ok second).
  assert (Hv : exists v, threshold = Ok v).
  { subst threshold. destruct (py_truthy first); eauto. }
  destruct Hv as (v & ->). simpl.
  destruct (range_test_total v) as (bad & ->). simpl.
  destruct bad; [now apply emits_one | apply emits_nothing].
Qed.

Lemma check_ttl_seconds_emits :
  P ("Plugin '" ++ t ++ "': ttl_seconds must be a non-negative integer") ->
  emits P (check_ttl_seconds py_repr (VStr t) (VDict c)).
Proof.
  intros HP. unfold check_ttl_seconds. simpl.
  destruct (dict_get c "ttl_seconds") as [v|]; simpl;
    [|apply emits_nothing].
  destruct (int_test_total v py_lt py_lt_number) as (bad & ->). simpl.
  destruct bad; [now apply emits_one | apply emits_nothing].
Qed.

Lemma check_max_records_emits :
  P ("Plugin '" ++ t ++ "': max_records must be a positive integer") ->
  emits P (check_max_records py_repr (VStr t) (VDict c)).
Proof.
  intros HP. unfold check_max_records. simpl.
  destruct (dict_get c "max_records") as [v|]; simpl;
    [|apply emits_nothing].
  destruct (int_test_total v py_le py_le_number) as (bad & ->). simpl.
  destruct bad; [now apply emits_one | apply emits_nothing].
Qed.

Lemma check_mode_emits :
  P ("Plugin '" ++ t ++ "': mode must be 'replace' or 'insert'") ->
  emits P (check_mode py_repr (VStr t) (VDict c)).
Proof.
  intros HP. unfold check_mode. simpl.
  destruct (dict_get c "mode") as [v|]; simpl; [|apply emits_nothing].
  match goal with
  | |- context [if ?b then _ else _] => destruct b
  end; [now apply emits_one | apply emits_nothing].
Qed.

End PluginChecks.

(** ** validate_plugin *)

Lemma in_strs_In (x : pyval) (names : list string) :
  in_strs x names = true -> exists t, x = VStr t /\ In t names.
Proof.
  unfold in_strs. rewrite existsb_exists. intros (t & Hin & Heq).
  destruct x; simpl in Heq; try discriminate.
  apply String.eqb_eq in Heq. subst. eauto.
Qed.

Lemma In_in_strs (t : string) (names : list string) :
  In t names -> in_strs (VStr t) names = true.
Proof.
  intros H. unfold in_strs. rewrite existsb_exists.
  exists t. split; [exact H | apply String.eqb_refl].
Qed.

Lemma supported_cases (t : string) (Q : string -> Prop) :
  In t SUPPORTED_PLUGINS ->
  Q "semantic-cache" -> Q "jailbreak" -> Q "pii" -> Q "system_prompt" ->
  Q "header_mutation" -> Q "hallucination" -> Q "router_replay" -> Q t.
Proof.
  intros H. simpl in H.
  repeat (destruct H as [<- | H]; [intros; assumption|]). contradiction.
Qed.

Lemma required_of_supported (t f : string) :
  In t SUPPORTED_PLUGINS -> In f (schema_required (VStr t)) -> f = "enabled".
Proof.
  intros H. revert f. apply (supported_cases t) with (1 := H);
    simpl; intros f Hf; intuition auto.
Qed.

Lemma benign_messages (t : string) :
  In t SUPPORTED_PLUGINS ->
  benign ("Plugin '" ++ t ++ "' missing required field: enabled")
  /\ benign ("Plugin '" ++ t ++ "': 'enabled' must be a boolean")
  /\ benign ("Plugin '" ++ t ++ "': ttl_seconds must be a non-negative integer")
  /\ benign ("Plugin '" ++ t ++ "': max_records must be a positive integer")
  /\ benign ("Plugin '" ++ t ++ "': mode must be 'replace' or 'insert'").
Proof.
  intros H. apply (supported_cases t) with (1 := H);
    repeat split; vm_compute; reflexivity.
Qed.

Lemma threshold_message (t : string) :
  In t SUPPORTED_PLUGINS ->
  is_threshold_defect
    ("Plugin '" ++ t ++ "': threshold must be between 0.0 and 1.0") = true.
Proof.
  intros H. apply (supported_cases t) with (1 := H); vm_compute; reflexivity.
Qed.

Lemma count_threshold_defects_app (l1 l2 : list string) :
  count_threshold_defects (l1 ++ l2)
  = (count_threshold_defects l1 + count_threshold_defects l2)%nat.
Proof.
  unfold count_threshold_defects. now rewrite filter_app, length_app.
Qed.

Lemma count_threshold_defects_benign (l : list string) :
  Forall benign l -> count_threshold_defects l = 0%nat.
Proof.
  unfold count_threshold_defects.
  induction 1 as [|e l He _ IH]; simpl; [reflexivity|].
  unfold benign in He. now rewrite He.
Qed.

Section CheckConfiguration.

Variable py_repr : pyval -> result string.

(** For a supported type, the threshold check is the only source of
    threshold defects: what runs before it and after it is benign. *)
Lemma check_configuration_split (t : string) (c : list (pyval * pyval)) :
  In t SUPPORTED_PLUGINS ->
  exists before after,
    Forall benign before /\ Forall benign after /\
    forall s,
      check_configuration py_repr (VStr t) (VDict c) s
      = (s' <- check_threshold py_repr (VStr t) (VDict c)
                 (s ++ before)%list ;;
         Ok (s' ++ after)%list).
Proof.
  intros Ht.
  destruct (benign_messages t Ht) as (B1 & B2 & B3 & B4 & B5).
  assert (Hreq : emits benign (check_required py_repr (VStr t) (VDict c))).
  { apply check_required_emits. intros f Hf.
    rewrite (required_of_supported t f Ht Hf). exact B1. }
  pose proof (check_enabled_emits py_repr benign t c B2) as Hen.
  pose proof (check_ttl_seconds_emits py_repr benign t c B3) as Httl.
  pose proof (check_max_records_emits py_repr benign t c B4) as Hmax.
  pose proof (check_mode_emits py_repr benign t c B5) as Hmode.
  destruct (emits_bind _ _ _ Hreq Hen) as (before & Fb & Eb).
  destruct (emits_bind _ _ _ Httl (emits_bind _ _ _ Hmax Hmode))
    as (after & Fa & Ea).
  exists before, after. repeat split; try assumption.
  intros s. unfold check_configuration.
  specialize (Eb s). simpl in Eb.
  destruct (check_required py_repr (VStr t) (VDict c) s) as [e1|];
    simpl in *; [|discriminate].
  rewrite Eb. simpl.
  destruct (check_threshold py_repr (VStr t) (VDict c) (s ++ before)%list)
    as [e3|]; simpl; [|reflexivity].
  specialize (Ea e3). simpl in Ea.
  destruct (check_ttl_seconds py_repr (VStr t) (VDict c) e3) as [e4|];
    simpl in *; [|discriminate].
  destruct (check_max_records py_repr (VStr t) (VDict c) e4) as [e5|];
    simpl in *; [|discriminate].
  destruct (check_mode py_repr (VStr t) (VDict c) e5) as [e6|];
    simpl in *; [|discriminate].
  exact Ea.
Qed.

(** A plugin mapping with a supported type and a configuration runs the
    six checks from the empty list. *)
Lemma validate_plugin_supported (items : list (pyval * pyval))
      (t : string) (config : pyval) :
  dict_get items "type" = Some (VStr t) ->
  In t SUPPORTED_PLUGINS ->
  dict_get items "configuration" = Some config ->
  validate_plugin py_repr (VDict items)
  = check_configuration py_repr (VStr t) config [].
Proof.
  intros Htype Ht Hconf. unfold validate_plugin.
  cbn [py_contains py_getitem]. rewrite Htype. cbn [bind negb].
  rewrite (In_in_strs t _ Ht). cbn [negb].
  rewrite Hconf. reflexivity.
Qed.

End CheckConfiguration.

Section ValidatorResults.

Variable py_repr : pyval -> result string.

(** C7: in the result [validate_config] returns, [valid] is true exactly
    when [errors] is empty. *)
Theorem validate_config_valid_iff_no_errors (doc : pyval)
        (res : ValidationResult) :
  validate_config py_repr doc = Ok res ->
  valid res = true <-> errors res = [].
Proof.
  unfold validate_config. intros H.
  repeat bind_inv H. injection H as <-. cbn [valid errors].
  match goal with
  | |- Nat.eqb (List.length ?l) 0 = true <-> _ => destruct l
  end; simpl; split; congruence.
Qed.

(** C5: a plugin mapping without a [type] key gets exactly the one
    defect "Plugin missing 'type' field"; no other check runs. *)
Theorem validate_plugin_missing_type (plugin : pyval) :
  is_mapping plugin = true ->
  has_field "type" plugin = false ->
  validate_plugin py_repr plugin = Ok ["Plugin missing 'type' field"].
Proof.
  unfold has_field.
  destruct plugin as [ | | | | | |items]; simpl; try discriminate.
  intros _ Habsent. unfold validate_plugin. cbn [py_contains].
  destruct (dict_get items "type"); [discriminate|]. reflexivity.
Qed.

Lemma check_enabled_absent (pt : pyval) (c : list (pyval * pyval))
      (s : list string) :
  dict_get c "enabled" = None ->
  check_enabled py_repr pt (VDict c) s = Ok s.
Proof.
  intros H. unfold check_enabled. cbn [py_contains]. now rewrite H.
Qed.

Lemma check_threshold_absent (pt : pyval) (c : list (pyval * pyval))
      (s : list string) :
  dict_get c "threshold" = None ->
  dict_get c "similarity_threshold" = None ->
  check_threshold py_repr pt (VDict c) s = Ok s.
Proof.
  intros H1 H2. unfold check_threshold. cbn [py_contains].
  now rewrite H1, H2.
Qed.

Lemma check_ttl_seconds_absent (pt : pyval) (c : list (pyval * pyval))
      (s : list string) :
  dict_get c "ttl_seconds" = None ->
  check_ttl_seconds py_repr pt (VDict c) s = Ok s.
Proof.
  intros H. unfold check_ttl_seconds. cbn [py_contains]. now rewrite H.
Qed.

Lemma check_max_records_absent (pt : pyval) (c : list (pyval * pyval))
      (s : list string) :
  dict_get c "max_records" = None ->
  check_max_records py_repr pt (VDict c) s = Ok s.
Proof.
  intros H. unfold check_max_records. cbn [py_contains]. now rewrite H.
Qed.

Lemma check_mode_absent (pt : pyval) (c : list (pyval * pyval))
      (s : list string) :
  dict_get c "mode" = None ->
  check_mode py_repr pt (VDict c) s = Ok s.
Proof.
  intros H. unfold check_mode. cbn [py_contains]. now rewrite H.
Qed.

Lemma check_required_enabled_absent (t : string) (c : list (pyval * pyval))
      (s : list string) :
  In t SUPPORTED_PLUGINS ->
  In "enabled" (schema_required (VStr t)) ->
  dict_get c "enabled" = None ->
  check_required py_repr (VStr t) (VDict c) s
  = Ok (append s ("Plugin '" ++ t ++ "' missing required field: enabled")).
Proof.
  intros Ht. apply (supported_cases t) with (1 := Ht);
    intros Hreq Habsent; unfold check_required;
    cbn [schema_required schemas_get PLUGIN_SCHEMAS String.eqb Ascii.eqb
         Bool.eqb required for_each py_contains bind];
    try (rewrite Habsent; reflexivity).
  simpl in Hreq. contradiction.
Qed.

(** C6: for a supported type whose schema requires [enabled], a
    configuration mapping that has none of [enabled], [threshold],
    [similarity_threshold], [ttl_seconds], [max_records], [mode] gets
    exactly the one defect naming the missing [enabled]. *)
Theorem validate_plugin_missing_enabled (plugin : pyval) (t : string)
        (c : list (pyval * pyval)) :
  In t SUPPORTED_PLUGINS ->
  In "enabled" (schema_required (VStr t)) ->
  field "type" plugin = Some (VStr t) ->
  field "configuration" plugin = Some (VDict c) ->
  (forall k,
      In k [ "enabled"; "threshold"; "similarity_threshold";
             "ttl_seconds"; "max_records"; "mode" ] ->
      dict_get c k = None) ->
  validate_plugin py_repr plugin
  = Ok ["Plugin '" ++ t ++ "' missing required field: enabled"].
Proof.
  intros Ht Hreq Htype Hconf Habsent.
  destruct plugin as [ | | | | | |items]; simpl in Htype; try discriminate.
  simpl in Hconf.
  rewrite (validate_plugin_supported py_repr items t (VDict c)) by assumption.
  unfold check_configuration.
  rewrite check_required_enabled_absent;
    [|assumption|assumption|apply Habsent; simpl; tauto].
  cbn [bind].
  rewrite check_enabled_absent by (apply Habsent; simpl; tauto).
  cbn [bind].
  rewrite check_threshold_absent by (apply Habsent; simpl; tauto).
  cbn [bind].
  rewrite check_ttl_seconds_absent by (apply Habsent; simpl; tauto).
  cbn [bind].
  rewrite check_max_records_absent by (apply Habsent; simpl; tauto).
  cbn [bind].
  rewrite check_mode_absent by (apply Habsent; simpl; tauto).
  reflexivity.
Qed.

End ValidatorResults.

(** ** The threshold range test *)

(** The comparison the program runs agrees with the order of the rationals
    the numbers denote. *)
Lemma py_compare_value (v : pyval) (q : Q) (k : Z) :
  num_value v = Some q ->
  py_compare v k = Ok (Some (q ?= inject_Z k)%Q).
Proof.
  destruct v as [ |b|n|f| | | ]; simpl; try discriminate.
  - intros [= <-]. destruct b; unfold Qcompare; simpl;
      now rewrite ?Z.mul_1_r.
  - intros [= <-]. unfold Qcompare; simpl. now rewrite !Z.mul_1_r.
  - destruct f as [s|s| |s m e]; simpl; try discriminate.
    + intros [= <-]. unfold Qcompare; simpl. now rewrite Z.mul_1_r.
    + intros [= <-]. destruct e; unfold Qcompare; simpl;
        now rewrite ?Z.mul_1_r.
Qed.

Lemma num_value_number (v : pyval) (q : Q) :
  num_value v = Some q -> is_number v = true.
Proof. destruct v; simpl; congruence. Qed.

Lemma range_test_value (v : pyval) (q : Q) :
  num_value v = Some q ->
  or_else (negb (is_number v))
    (below <- py_lt v 0 ;; or_else below (py_gt v 1))
  = Ok (match (q ?= 0)%Q, (q ?= 1)%Q with
        | Lt, _ => true
        | _, Gt => true
        | _, _ => false
        end).
Proof.
  intros Hv. rewrite (num_value_number v q Hv). cbn [negb or_else].
  unfold py_lt, py_gt. rewrite !(py_compare_value v q) by assumption.
  cbn [bind]. change (inject_Z 0) with 0%Q. change (inject_Z 1) with 1%Q.
  destruct (q ?= 0)%Q, (q ?= 1)%Q; reflexivity.
Qed.

Lemma range_test_in_unit (v : pyval) :
  in_unit_interval v ->
  or_else (negb (is_number v))
    (below <- py_lt v 0 ;; or_else below (py_gt v 1)) = Ok false.
Proof.
  intros (q & Hv & H0 & H1). rewrite (range_test_value v q Hv).
  destruct (q ?= 0)%Q eqn:C0.
  - destruct (q ?= 1)%Q eqn:C1; try reflexivity.
    apply Qgt_alt in C1. now apply Qle_not_lt in H1.
  - apply Qlt_alt in C0. now apply Qle_not_lt in H0.
  - destruct (q ?= 1)%Q eqn:C1; try reflexivity.
    apply Qgt_alt in C1. now apply Qle_not_lt in H1.
Qed.

Lemma range_test_outside (v : pyval) :
  outside_unit_interval v ->
  or_else (negb (is_number v))
    (below <- py_lt v 0 ;; or_else below (py_gt v 1)) = Ok true.
Proof.
  intros (Hn & Hnan & Hout).
  destruct (num_value v) as [q|] eqn:Hv.
  - rewrite (range_test_value v q Hv).
    destruct (q ?= 0)%Q eqn:C0; try reflexivity;
      destruct (q ?= 1)%Q eqn:C1; try reflexivity;
      exfalso; apply Hout; exists q; (split; [exact Hv|]); split;
      try (apply Qle_alt; congruence);
      try (apply Qge_alt; congruence).
  - destruct v as [ | | |f| | | ]; simpl in *; try discriminate.
    destruct f as [s|s| |s m e]; simpl in *; try discriminate.
    destruct s; reflexivity.
Qed.

Lemma outside_truthy (v : pyval) :
  outside_unit_interval v -> py_truthy v = true.
Proof.
  intros (Hn & Hnan & Hout).
  destruct (py_truthy v) eqn:T; [reflexivity|].
  exfalso. apply Hout.
  destruct v as [ |b|n|f| | | ]; simpl in *; try discriminate.
  - subst b. exists 0%Q. repeat split; discriminate.
  - apply Bool.negb_false_iff, Z.eqb_eq in T. subst n.
    exists 0%Q. repeat split; discriminate.
  - destruct f; simpl in T; try discriminate.
    exists 0%Q. repeat split; discriminate.
Qed.

Section Threshold.

Variable py_repr : pyval -> result string.

(** A truthy [threshold] is the value checked, whatever else the
    configuration holds. *)
Lemma check_threshold_truthy (t : string) (c : list (pyval * pyval))
      (v : pyval) (s : list string) :
  dict_get c "threshold" = Some v ->
  py_truthy v = true ->
  check_threshold py_repr (VStr t) (VDict c) s
  = (bad <- or_else (negb (is_number v))
              (below <- py_lt v 0 ;; or_else below (py_gt v 1)) ;;
     if bad
     then Ok (append s ("Plugin '" ++ t
                        ++ "': threshold must be between 0.0 and 1.0"))
     else Ok s).
Proof.
  intros Hv Ht. unfold check_threshold. cbn [py_contains py_get].
  rewrite Hv. cbn [bind or_else]. rewrite Ht. reflexivity.
Qed.

(** A falsy [threshold] with no [similarity_threshold] beside it makes
    the check look at [None]. *)
Lemma check_threshold_falsy (t : string) (c : list (pyval * pyval))
      (v : pyval) (s : list string) :
  dict_get c "threshold" = Some v ->
  dict_get c "similarity_threshold" = None ->
  py_truthy v = false ->
  check_threshold py_repr (VStr t) (VDict c) s
  = Ok (append s ("Plugin '" ++ t
                  ++ "': threshold must be between 0.0 and 1.0")).
Proof.
  intros Hv Hs Ht. unfold check_threshold. cbn [py_contains py_get].
  rewrite Hv, Hs. cbn [bind or_else]. rewrite Ht. reflexivity.
Qed.

(** The result of [validate_plugin], by what the threshold check does. *)
Lemma validate_plugin_threshold_count (plugin : pyval) (t : string)
      (c : list (pyval * pyval)) (emitted : list string) :
  In t SUPPORTED_PLUGINS ->
  field "type" plugin = Some (VStr t) ->
  field "configuration" plugin = Some (VDict c) ->
  (forall s, check_threshold py_repr (VStr t) (VDict c) s
             = Ok (s ++ emitted)%list) ->
  exists errs,
    validate_plugin py_repr plugin = Ok errs
    /\ count_threshold_defects errs = count_threshold_defects emitted.
Proof.
  intros Ht Htype Hconf Hthr.
  destruct plugin as [ | | | | | |items]; simpl in Htype; try discriminate.
  simpl in Hconf.
  rewrite (validate_plugin_supported py_repr items t (VDict c)) by assumption.
  destruct (check_configuration_split py_repr t c Ht)
    as (before & after & Fb & Fa & E).
  rewrite E, Hthr. cbn [bind]. eexists. split; [reflexivity|].
  rewrite !count_threshold_defects_app.
  rewrite (count_threshold_defects_benign before Fb).
  rewrite (count_threshold_defects_benign after Fa).
  simpl. lia.
Qed.

(** A truthy [threshold] in [0.0, 1.0] raises no threshold defect. *)
Lemma truthy_threshold_in_unit_accepted (plugin : pyval) (t : string)
      (c : list (pyval * pyval)) (v : pyval) :
  In t SUPPORTED_PLUGINS ->
  field "type" plugin = Some (VStr t) ->
  field "configuration" plugin = Some (VDict c) ->
  dict_get c "threshold" = Some v ->
  py_truthy v = true ->
  in_unit_interval v ->
  exists errs,
    validate_plugin py_repr plugin = Ok errs
    /\ count_threshold_defects errs = 0%nat.
Proof.
  intros Ht Htype Hconf Hv Htruthy Hunit.
  apply (validate_plugin_threshold_count plugin t c []); try assumption.
  intros s. rewrite (check_threshold_truthy _ c v) by assumption.
  rewrite (range_test_in_unit v Hunit). cbn [bind].
  now rewrite app_nil_r.
Qed.

(** X6: a [threshold] that is a number outside [0.0, 1.0] raises exactly
    one threshold defect. *)
Lemma threshold_outside_unit_rejected (plugin : pyval) (t : string)
      (c : list (pyval * pyval)) (v : pyval) :
  In t SUPPORTED_PLUGINS ->
  field "type" plugin = Some (VStr t) ->
  field "configuration" plugin = Some (VDict c) ->
  dict_get c "threshold" = Some v ->
  outside_unit_interval v ->
  exists errs,
    validate_plugin py_repr plugin = Ok errs
    /\ count_threshold_defects errs = 1%nat.
Proof.
  intros Ht Htype Hconf Hv Hout.
  destruct (validate_plugin_threshold_count plugin t c
              ["Plugin '" ++ t ++ "': threshold must be between 0.0 and 1.0"])
    as (errs & E & Hcount); try assumption.
  - intros s.
    rewrite (check_threshold_truthy _ c v)
      by (try assumption; now apply outside_truthy).
    rewrite (range_test_outside v Hout). reflexivity.
  - exists errs. split; [exact E|]. rewrite Hcount.
    unfold count_threshold_defects. cbn [filter].
    now rewrite (threshold_message t Ht).
Qed.

(** X7: a falsy [threshold] (0, 0.0, -0.0, False, ...) with no
    [similarity_threshold] beside it raises exactly one threshold
    defect, whether or not it lies in the interval. *)
Lemma falsy_threshold_rejected (plugin : pyval) (t : string)
      (c : list (pyval * pyval)) (v : pyval) :
  In t SUPPORTED_PLUGINS ->
  field "type" plugin = Some (VStr t) ->
  field "configuration" plugin = Some (VDict c) ->
  dict_get c "threshold" = Some v ->
  dict_get c "similarity_threshold" = None ->
  py_truthy v = false ->
  exists errs,
    validate_plugin py_repr plugin = Ok errs
    /\ count_threshold_defects errs = 1%nat.
Proof.
  intros Ht Htype Hconf Hv Hs Hfalsy.
  destruct (validate_plugin_threshold_count plugin t c
              ["Plugin '" ++ t ++ "': threshold must be between 0.0 and 1.0"])
    as (errs & E & Hcount); try assumption.
  - intros s. now rewrite (check_threshold_falsy _ c v) by assumption.
  - exists errs. split; [exact E|]. rewrite Hcount.
    unfold count_threshold_defects. cbn [filter].
    now rewrite (threshold_message t Ht).
Qed.

(** C2: the plugin [{type: jailbreak, configuration: {enabled: true,
    threshold: 0.0}}] meets the claim's conditions (supported type,
    [threshold] present and in [0.0, 1.0], no [similarity_threshold]),
    and [validate_plugin] returns a threshold-range defect for it. *)
Theorem zero_threshold_gets_range_defect :
  In "jailbreak" SUPPORTED_PLUGINS
  /\ (exists c v,
         field "configuration" zero_threshold_plugin = Some (VDict c)
         /\ dict_get c "threshold" = Some v
         /\ dict_get c "similarity_threshold" = None
         /\ in_unit_interval v)
  /\ validate_plugin py_repr zero_threshold_plugin
     = Ok ["Plugin 'jailbreak': threshold must be between 0.0 and 1.0"]
  /\ count_threshold_defects
       ["Plugin 'jailbreak': threshold must be between 0.0 and 1.0"] = 1%nat.
Proof.
  split; [simpl; tauto|]. split.
  - eexists. eexists. repeat split; try reflexivity.
    exists 0%Q. repeat split; discriminate.
  - split; reflexivity.
Qed.

(** C9: with both [threshold] and [similarity_threshold] present, a
    truthy [threshold] in [0.0, 1.0] raises no threshold defect,
    whatever [similarity_threshold] is. *)
Theorem threshold_shadows_similarity_threshold (plugin : pyval)
        (t : string) (c : list (pyval * pyval)) (v w : pyval) :
  In t SUPPORTED_PLUGINS ->
  field "type" plugin = Some (VStr t) ->
  field "configuration" plugin = Some (VDict c) ->
  dict_get c "threshold" = Some v ->
  dict_get c "similarity_threshold" = Some w ->
  py_truthy v = true ->
  in_unit_interval v ->
  exists errs,
    validate_plugin py_repr plugin = Ok errs
    /\ count_threshold_defects errs = 0%nat
    /\ forall e, In e errs -> is_threshold_defect e = false.
Proof.
  intros Ht Htype Hconf Hv _ Htruthy Hunit.
  destruct (truthy_threshold_in_unit_accepted plugin t c v)
    as (errs & E & Hcount); try assumption.
  exists errs. repeat split; try assumption.
  intros e He. unfold count_threshold_defects in Hcount.
  destruct (is_threshold_defect e) eqn:D; [|reflexivity].
  assert (Hin : In e (filter is_threshold_defect errs))
    by (apply filter_In; now split).
  destruct (filter is_threshold_defect errs); [contradiction|discriminate].
Qed.

End Threshold.

(** ** generate_config *)

Lemma eq_str_true (k : string) (x : pyval) : eq_str k x = true -> x = VStr k.
Proof.
  destruct x; simpl; try discriminate.
  intros H. apply String.eqb_eq in H. now subst.
Qed.

Lemma dict_get_remove_same (items : list (pyval * pyval)) (k : string) :
  dict_get (dict_remove items k) k = None.
Proof.
  induction items as [|[k' v] rest IH]; simpl; [reflexivity|].
  destruct (eq_str k k') eqn:E; simpl; [exact IH|].
  now rewrite E.
Qed.

Lemma dict_get_remove_other (items : list (pyval * pyval)) (k k' : string) :
  k <> k' -> dict_get (dict_remove items k) k' = dict_get items k'.
Proof.
  intros Hne. induction items as [|[key v] rest IH]; simpl; [reflexivity|].
  destruct (eq_str k key) eqn:E; simpl.
  - apply eq_str_true in E. subst key. simpl.
    destruct (String.eqb_spec k' k) as [->|_]; [congruence | exact IH].
  - destruct (eq_str k' key); [reflexivity | exact IH].
Qed.

Lemma Forall2_nth_error_left {A B : Type} (R : A -> B -> Prop)
      (l : list A) (l' : list B) :
  Forall2 R l l' ->
  forall i a, nth_error l i = Some a ->
              exists b, nth_error l' i = Some b /\ R a b.
Proof.
  induction 1 as [|x y l l' Hxy _ IH]; intros [|i] a; simpl;
    try discriminate.
  - intros [= <-]. eauto.
  - apply IH.
Qed.

Section Generator.

Variable py_repr : pyval -> result string.
Variable yaml_dump : pyval -> result string.

Lemma make_decision_named (plugins endpoint : pyval)
      (decisions : list pyval) :
  has_usable_name py_repr endpoint = true ->
  exists decision,
    make_decision py_repr plugins endpoint decisions
    = Ok (decisions ++ [decision])%list
    /\ routes_to py_repr plugins endpoint decision.
Proof.
  unfold has_usable_name, formattable.
  destruct endpoint as [ | | | | | |items]; simpl; try discriminate.
  destruct (dict_get items "name") as [name|] eqn:Hname;
    [|discriminate].
  destruct (format_value py_repr name) as [name_text|] eqn:Htext;
    [intros _ | discriminate].
  unfold make_decision. cbn [py_getitem]. rewrite Hname. cbn [bind].
  rewrite Htext. cbn [bind].
  eexists. split; [reflexivity|].
  exists name, name_text. simpl. rewrite Hname.
  destruct (py_truthy plugins); simpl; auto.
Qed.

(** The loop over the endpoints: one decision each, in order. *)
Lemma make_decisions_named (plugins : pyval) (l : list pyval) :
  forallb (has_usable_name py_repr) l = true ->
  forall decisions,
  exists made,
    for_each (make_decision py_repr plugins) l decisions
    = Ok (decisions ++ made)%list
    /\ Forall2 (routes_to py_repr plugins) l made.
Proof.
  induction l as [|endpoint rest IH]; simpl; intros Hnamed decisions.
  - exists []. split; [now rewrite app_nil_r | constructor].
  - apply andb_prop in Hnamed. destruct Hnamed as [Hhead Hrest].
    destruct (make_decision_named plugins endpoint decisions Hhead)
      as (decision & -> & Hroute).
    cbn [bind].
    destruct (IH Hrest (decisions ++ [decision])%list) as (made & -> & Hmade).
    exists (decision :: made). split.
    + now rewrite <- app_assoc.
    + now constructor.
Qed.

(** The document built from a mapping, once the decisions are made. *)
Lemma generate_document_mapping (items : list (pyval * pyval)) :
  generate_document py_repr (VDict items)
  = (let endpoints :=
       match dict_get items "endpoints" with
       | Some v => v
       | None => VList []
       end in
     let endpoints :=
       if negb (py_truthy endpoints) then VList [default_endpoint]
       else endpoints in
     let plugins :=
       match dict_get items "plugins" with
       | Some v => v
       | None => VList []
       end in
     l <- py_iter endpoints ;;
     decisions <- for_each (make_decision py_repr plugins) l [] ;;
     Ok (VDict
           [ (VStr "version",
              match dict_get items "version" with
              | Some v => v
              | None => VStr "1.0"
              end);
             (VStr "listeners",
              VList
                [ VDict
                    [ (VStr "port",
                       match dict_get items "port" with
                       | Some v => v
                       | None => VInt 8888
                       end);
                      (VStr "endpoints", endpoints) ] ]);
             (VStr "decisions", VList decisions) ])).
Proof. reflexivity. Qed.

(** C3, as amended: for a parameter bag that is a mapping whose
    [endpoints], when supplied and not empty, is a sequence of mappings
    each with a [name] that can be spliced into text, [generate_config]
    builds its document without raising and hands it to [yaml.dump]: it
    returns the serialised document when [yaml.dump] returns it, and
    raises only what [yaml.dump] raises on that document. *)
Theorem generate_config_returns_on_shaped (params : pyval) :
  params_shaped py_repr params = true ->
  exists doc,
    generate_document py_repr params = Ok doc
    /\ generate_config py_repr yaml_dump params = yaml_dump doc
    /\ forall text,
        yaml_dump doc = Ok text ->
        generate_config py_repr yaml_dump params = Ok text.
Proof.
  unfold params_shaped, field_is.
  destruct params as [ | | | | | |items]; simpl is_mapping;
    try discriminate.
  cbn [andb field]. intros Hshape.
  assert (H : exists doc, generate_document py_repr (VDict items) = Ok doc).
  { rewrite generate_document_mapping. cbv zeta.
    set (plugins := match dict_get items "plugins" with
                    | Some v => v | None => VList [] end).
    destruct (dict_get items "endpoints") as [endpoints|].
    - destruct (py_truthy endpoints) eqn:T; cbn [negb] in *.
      + cbn [orb] in Hshape.
        destruct endpoints as [ | | | | |l| ]; simpl in Hshape;
          try discriminate.
        cbn [py_iter bind].
        destruct (make_decisions_named plugins l Hshape [])
          as (made & -> & _).
        cbn [bind]. eauto.
      + cbn [py_iter bind for_each].
        destruct (make_decision_named plugins default_endpoint [] eq_refl)
          as (decision & -> & _).
        cbn [bind]. eauto.
    - cbn [py_truthy negb py_iter bind for_each].
      destruct (make_decision_named plugins default_endpoint [] eq_refl)
        as (decision & -> & _).
      cbn [bind]. eauto. }
  destruct H as (doc & E). exists doc. split; [exact E|].
  unfold generate_config. rewrite E. cbn [bind].
  split; [reflexivity | trivial].
Qed.

(** C4: the empty parameter bag yields one listener on port 8888 with
    the one endpoint "default", and the one decision "default_route"
    referring to "default"; that document validates with no error. *)
Theorem generate_empty_params_round_trip :
  exists doc listener endpoint decision,
    generate_document py_repr (VDict []) = Ok doc
    /\ generate_config py_repr yaml_dump (VDict []) = yaml_dump doc
    /\ field "listeners" doc = Some (VList [listener])
    /\ field "port" listener = Some (VInt 8888)
    /\ field "endpoints" listener = Some (VList [endpoint])
    /\ field "name" endpoint = Some (VStr "default")
    /\ field "decisions" doc = Some (VList [decision])
    /\ field "name" decision = Some (VStr "default_route")
    /\ field "endpoint" decision = Some (VStr "default")
    /\ validate_config py_repr doc = Ok {| valid := true; errors := [] |}.
Proof.
  do 4 eexists. split; [reflexivity|]. repeat split.
Qed.

(** C8, as amended: for a parameter bag supplying a list of [n >= 1]
    endpoints, each with a [name] that can be spliced into text, and a
    non-empty plugin list, the document has exactly [n] decisions; the
    [i]-th is named after the [i]-th endpoint with the suffix "_route",
    refers to that endpoint's name, and carries the supplied plugin
    list. *)
Theorem generate_one_decision_per_endpoint (params : pyval)
        (endpoints : list pyval) (p : pyval) (rest : list pyval) :
  field "endpoints" params = Some (VList endpoints) ->
  endpoints <> [] ->
  forallb (has_usable_name py_repr) endpoints = true ->
  field "plugins" params = Some (VList (p :: rest)) ->
  exists doc decisions,
    generate_document py_repr params = Ok doc
    /\ field "decisions" doc = Some (VList decisions)
    /\ List.length decisions = List.length endpoints
    /\ forall i endpoint,
        nth_error endpoints i = Some endpoint ->
        exists name name_text decision,
          field "name" endpoint = Some name
          /\ format_value py_repr name = Ok name_text
          /\ nth_error decisions i = Some decision
          /\ field "name" decision = Some (VStr (name_text ++ "_route"))
          /\ field "endpoint" decision = Some name
          /\ field "plugins" decision = Some (VList (p :: rest)).
Proof.
  intros Heps Hne Hnamed Hplugins.
  destruct params as [ | | | | | |items]; simpl in Heps; try discriminate.
  simpl in Hplugins.
  rewrite generate_document_mapping. rewrite Heps, Hplugins. cbv zeta.
  destruct endpoints as [|e0 more]; [congruence|].
  cbn [py_truthy negb py_iter bind].
  destruct (make_decisions_named (VList (p :: rest)) (e0 :: more) Hnamed [])
    as (made & -> & Hmade).
  cbn [bind]. exists (VDict
           [ (VStr "version",
              match dict_get items "version" with
              | Some v => v
              | None => VStr "1.0"
              end);
             (VStr "listeners",
              VList
                [ VDict
                    [ (VStr "port",
                       match dict_get items "port" with
                       | Some v => v
                       | None => VInt 8888
                       end);
                      (VStr "endpoints", VList (e0 :: more)) ] ]);
             (VStr "decisions", VList ([] ++ made)) ]).
  exists made. split; [reflexivity|]. split; [reflexivity|]. split.
  - symmetry. now apply Forall2_length in Hmade.
  - intros i endpoint Hi.
    destruct (Forall2_nth_error_left _ _ _ Hmade i endpoint Hi)
      as (decision & Hd & name & name_text & Hn & Ht & Hdn & Hde & Hdp).
    exists name, name_text, decision. repeat split; assumption.
Qed.

(** C10: a parameter bag whose [endpoints] is the empty list generates
    what the same bag without [endpoints] generates: the one listener
    holds the synthetic endpoint "default" and the one decision is its
    "default_route". *)
Theorem generate_empty_endpoints_as_absent (items : list (pyval * pyval)) :
  dict_get items "endpoints" = Some (VList []) ->
  generate_document py_repr (VDict items)
  = generate_document py_repr (VDict (dict_remove items "endpoints"))
  /\ exists doc listener decision,
      generate_document py_repr (VDict items) = Ok doc
      /\ field "listeners" doc = Some (VList [listener])
      /\ field "endpoints" listener = Some (VList [default_endpoint])
      /\ field "decisions" doc = Some (VList [decision])
      /\ field "name" decision = Some (VStr "default_route")
      /\ field "endpoint" decision = Some (VStr "default").
Proof.
  intros Hempty. split.
  - rewrite !generate_document_mapping.
    rewrite dict_get_remove_same.
    rewrite !dict_get_remove_other by discriminate.
    now rewrite Hempty.
  - rewrite generate_document_mapping. rewrite Hempty. cbv zeta.
    cbn [py_truthy negb py_iter bind for_each].
    unfold make_decision. cbn [py_getitem default_endpoint dict_get eq_str
                               String.eqb Ascii.eqb Bool.eqb bind
                               format_value].
    do 3 eexists. split; [reflexivity|].
    repeat split.
    + destruct (py_truthy _); reflexivity.
    + destruct (py_truthy _); reflexivity.
Qed.

End Generator.

(** ** The properties on concrete inputs *)

(** C1 as stated fails: a wrong-typed substructure makes
    [validate_config] raise [TypeError] instead of returning a result. *)
Lemma validate_config_raises_on_wrong_types :
  validate_config repr_placeholder VNone = Raise TypeError
  /\ validate_config repr_placeholder doc_listeners_not_sequence
     = Raise TypeError
  /\ validate_config repr_placeholder doc_listener_not_mapping
     = Raise TypeError
  /\ validate_config repr_placeholder doc_decision_not_mapping
     = Raise TypeError
  /\ validate_config repr_placeholder doc_plugin_not_mapping
     = Raise TypeError
  /\ validate_config repr_placeholder doc_configuration_not_mapping
     = Raise TypeError.
Proof. repeat split. Qed.

(** An integer that cannot be rendered as text makes the f-strings of
    lines 172 and 286 raise [ValueError]. *)
Lemma validate_plugin_raises_on_huge_type :
  validate_plugin repr_placeholder plugin_of_huge_type = Raise ValueError.
Proof. vm_compute. reflexivity. Qed.

Lemma generate_config_raises_on_huge_name :
  generate_config repr_placeholder yaml_placeholder
                  params_endpoint_of_huge_name = Raise ValueError.
Proof. vm_compute. reflexivity. Qed.

(** A text is iterated character by character, not byte by byte. *)
Lemma py_iter_by_characters :
  py_iter (VStr text_of_three_characters)
  = Ok [VStr "a"; VStr e_acute; VStr "b"].
Proof. reflexivity. Qed.

(** C3 as stated fails: an endpoint without [name] makes
    [generate_config] raise [KeyError], one that is not a mapping
    [TypeError]. *)
Lemma generate_config_raises_on_unnamed_endpoint :
  generate_config repr_placeholder yaml_placeholder
                  params_endpoint_without_name = Raise KeyError
  /\ generate_config repr_placeholder yaml_placeholder
                     params_endpoint_not_mapping = Raise TypeError.
Proof. split; reflexivity. Qed.

Lemma generate_config_returns_on_shaped_witness :
  params_shaped repr_placeholder params_two_endpoints_one_plugin = true
  /\ exists doc,
      generate_document repr_placeholder params_two_endpoints_one_plugin
      = Ok doc
      /\ generate_config repr_placeholder yaml_placeholder
                         params_two_endpoints_one_plugin
         = yaml_placeholder doc
      /\ forall text,
          yaml_placeholder doc = Ok text ->
          generate_config repr_placeholder yaml_placeholder
                          params_two_endpoints_one_plugin = Ok text.
Proof.
  split; [reflexivity|].
  apply (generate_config_returns_on_shaped
           repr_placeholder yaml_placeholder params_two_endpoints_one_plugin).
  reflexivity.
Defined.

Lemma validate_plugin_missing_type_witness :
  is_mapping (dict_of [("configuration", dict_of [])]) = true
  /\ has_field "type" (dict_of [("configuration", dict_of [])]) = false
  /\ validate_plugin repr_placeholder (dict_of [("configuration", dict_of [])])
     = Ok ["Plugin missing 'type' field"].
Proof.
  split; [reflexivity|]. split; [reflexivity|].
  apply (validate_plugin_missing_type repr_placeholder); reflexivity.
Defined.

Lemma validate_plugin_missing_enabled_witness :
  In "jailbreak" SUPPORTED_PLUGINS
  /\ In "enabled" (schema_required (VStr "jailbreak"))
  /\ validate_plugin repr_placeholder
       (dict_of [("type", VStr "jailbreak"); ("configuration", dict_of [])])
     = Ok ["Plugin 'jailbreak' missing required field: enabled"].
Proof.
  split; [right; left; reflexivity|]. split; [left; reflexivity|].
  apply (validate_plugin_missing_enabled
           repr_placeholder
           (dict_of [("type", VStr "jailbreak"); ("configuration", dict_of [])])
           "jailbreak" []).
  - right; left; reflexivity.
  - left; reflexivity.
  - reflexivity.
  - reflexivity.
  - intros k _. reflexivity.
Defined.

Lemma validate_config_valid_iff_no_errors_witness :
  exists res,
    validate_config repr_placeholder (VDict []) = Ok res
    /\ errors res = [ "Configuration missing 'version' field";
                      "Configuration missing 'listeners' field" ]
    /\ (valid res = true <-> errors res = []).
Proof.
  eexists. split; [reflexivity|]. split; [reflexivity|].
  apply (validate_config_valid_iff_no_errors repr_placeholder (VDict [])).
  reflexivity.
Defined.

(** C8 as stated fails for [n = 0]: an empty endpoint list beside a
    non-empty plugin list yields one decision, not none. *)
Lemma generate_empty_endpoint_list_one_decision :
  field "endpoints" params_no_endpoints_one_plugin = Some (VList [])
  /\ field "plugins" params_no_endpoints_one_plugin
     = Some (VList [cache_plugin])
  /\ exists doc decision,
      generate_document repr_placeholder params_no_endpoints_one_plugin
      = Ok doc
      /\ field "decisions" doc = Some (VList [decision])
      /\ List.length [decision] <> List.length (@nil pyval).
Proof.
  split; [reflexivity|]. split; [reflexivity|].
  do 2 eexists. split; [reflexivity|]. split; [reflexivity|]. discriminate.
Qed.

Lemma generate_one_decision_per_endpoint_witness :
  exists doc decisions,
    generate_document repr_placeholder params_two_endpoints_one_plugin = Ok doc
    /\ field "decisions" doc = Some (VList decisions)
    /\ List.length decisions = 2%nat
    /\ forall i endpoint,
        nth_error [ dict_of [("name", VStr "a"); ("url", VStr "u1")];
                    dict_of [("name", VStr "b"); ("url", VStr "u2")] ] i
        = Some endpoint ->
        exists name name_text decision,
          field "name" endpoint = Some name
          /\ format_value repr_placeholder name = Ok name_text
          /\ nth_error decisions i = Some decision
          /\ field "name" decision = Some (VStr (name_text ++ "_route"))
          /\ field "endpoint" decision = Some name
          /\ field "plugins" decision = Some (VList [cache_plugin]).
Proof.
  apply (generate_one_decision_per_endpoint
           repr_placeholder params_two_endpoints_one_plugin
           [ dict_of [("name", VStr "a"); ("url", VStr "u1")];
             dict_of [("name", VStr "b"); ("url", VStr "u2")] ]
           cache_plugin []).
  - reflexivity.
  - discriminate.
  - reflexivity.
  - reflexivity.
Defined.

Lemma one_half_in_unit_interval : in_unit_interval (VFloat one_half).
Proof.
  eexists. split; [reflexivity|]. split; unfold Qle; simpl; lia.
Defined.

Lemma threshold_shadows_similarity_threshold_witness :
  exists errs,
    validate_plugin repr_placeholder shadowing_plugin = Ok errs
    /\ count_threshold_defects errs = 0%nat
    /\ forall e, In e errs -> is_threshold_defect e = false.
Proof.
  apply (threshold_shadows_similarity_threshold
           repr_placeholder shadowing_plugin "pii"
           [ (VStr "enabled", VBool true);
             (VStr "threshold", VFloat one_half);
             (VStr "similarity_threshold", VInt 7) ]
           (VFloat one_half) (VInt 7)).
  - right; right; left; reflexivity.
  - reflexivity.
  - reflexivity.
  - reflexivity.
  - reflexivity.
  - reflexivity.
  - exact one_half_in_unit_interval.
Defined.

Lemma generate_empty_endpoints_as_absent_witness :
  generate_document repr_placeholder (dict_of [("endpoints", VList [])])
  = generate_document repr_placeholder (VDict [])
  /\ exists doc listener decision,
      generate_document repr_placeholder (dict_of [("endpoints", VList [])])
      = Ok doc
      /\ field "listeners" doc = Some (VList [listener])
      /\ field "endpoints" listener = Some (VList [default_endpoint])
      /\ field "decisions" doc = Some (VList [decision])
      /\ field "name" decision = Some (VStr "default_route")
      /\ field "endpoint" decision = Some (VStr "default").
Proof.
  apply (generate_empty_endpoints_as_absent
           repr_placeholder [(VStr "endpoints", VList [])]).
  reflexivity.
Defined.

(** A NaN [threshold] is a number, lies in no interval, and passes the
    range test: both comparisons of line 193 are false on it. *)
Lemma nan_threshold_gets_no_defect :
  is_number (VFloat S754_nan) = true
  /\ ~ in_unit_interval (VFloat S754_nan)
  /\ validate_plugin repr_placeholder nan_threshold_plugin = Ok [].
Proof.
  split; [reflexivity|]. split; [|reflexivity].
  intros (q & Hq & _). discriminate Hq.
Qed.

(** ** What the validator accepts *)

Lemma judges_nothing {A : Type} : judges (A := A) true (fun s => Ok s).
Proof.
  exists []. split; [intros s; now rewrite app_nil_r | tauto].
Qed.

Lemma judges_one {A : Type} (x : A) :
  judges false (fun s => Ok (append s x)).
Proof.
  exists [x]. split; [reflexivity | split; discriminate].
Qed.

Lemma judges_if {A : Type} (b : bool) (x : A) :
  judges (negb b) (fun s => Ok (if b then append s x else s)).
Proof.
  destruct b; [apply judges_one | apply judges_nothing].
Qed.

Lemma judges_bind {A : Type} (a b : bool)
      (f g : list A -> result (list A)) :
  judges a f -> judges b g -> judges (a && b) (fun s => s' <- f s ;; g s').
Proof.
  intros (e1 & H1 & I1) (e2 & H2 & I2). exists (e1 ++ e2)%list. split.
  - intros s. rewrite H1. simpl. rewrite H2. now rewrite app_assoc.
  - rewrite andb_true_iff, <- I1, <- I2. split.
    + intros H. now apply app_eq_nil in H.
    + intros [-> ->]. reflexivity.
Qed.

Lemma judges_let {A : Type} (a b : bool) (h : list A -> list A)
      (g : list A -> result (list A)) :
  judges a (fun s => Ok (h s)) -> judges b g ->
  judges (a && b) (fun s => g (h s)).
Proof.
  intros Hh Hg.
  exact (judges_bind a b (fun s => Ok (h s)) g Hh Hg).
Qed.

Lemma judges_as {A : Type} (a b : bool) (f : list A -> result (list A)) :
  a = b -> judges a f -> judges b f.
Proof. now intros ->. Qed.

Lemma for_each_judges {A B : Type} (ok : A -> bool)
      (body : A -> list B -> result (list B)) (l : list A) :
  (forall x, In x l -> judges (ok x) (body x)) ->
  judges (forallb ok l) (for_each body l).
Proof.
  induction l as [|x rest IH]; intros Hbody; simpl.
  - apply judges_nothing.
  - apply judges_bind.
    + apply Hbody. now left.
    + apply IH. intros y Hy. apply Hbody. now right.
Qed.

Lemma for_enumerate_judges {A B : Type} (ok : A -> bool)
      (body : nat -> A -> list B -> result (list B)) (l : list A) :
  (forall i x, In x l -> judges (ok x) (body i x)) ->
  forall i, judges (forallb ok l) (for_enumerate body i l).
Proof.
  induction l as [|x rest IH]; intros Hbody i; simpl.
  - apply judges_nothing.
  - apply judges_bind.
    + apply Hbody. now left.
    + apply IH. intros j y Hy. apply Hbody. now right.
Qed.

Lemma Qle_bool_compare (x y : Q) :
  Qle_bool x y = match (x ?= y)%Q with Gt => false | _ => true end.
Proof. reflexivity. Qed.

(** The range test of line 193 objects exactly to the values that are
    not accepted. *)
Lemma range_test_accepted (v : pyval) :
  or_else (negb (is_number v))
    (below <- py_lt v 0 ;; or_else below (py_gt v 1))
  = Ok (negb (threshold_accepted v)).
Proof.
  unfold threshold_accepted. destruct (num_value v) as [q|] eqn:Hv.
  - rewrite (range_test_value v q Hv). rewrite !Qle_bool_compare.
    rewrite <- (Qcompare_antisym q 0).
    destruct (q ?= 0)%Q, (q ?= 1)%Q; reflexivity.
  - destruct v as [ | | |f| | | ]; simpl in *; try discriminate;
      try reflexivity.
    destruct f as [s|s| |s m e]; simpl in *; try discriminate;
      try reflexivity.
    destruct s; reflexivity.
Qed.

Lemma nonnegative_test (v : pyval) :
  or_else (negb (is_int v)) (py_lt v 0)
  = Ok (negb match int_of v with Some n => 0 <=? n | None => false end).
Proof.
  destruct v as [ |b|n| | | | ]; simpl; try reflexivity.
  - destruct b; reflexivity.
  - unfold py_lt. simpl.
    destruct (Z.compare_spec n 0), (Z.leb_spec 0 n);
      simpl; try reflexivity; lia.
Qed.

Lemma positive_test (v : pyval) :
  or_else (negb (is_int v)) (py_le v 0)
  = Ok (negb match int_of v with Some n => 0 <? n | None => false end).
Proof.
  destruct v as [ |b|n| | | | ]; simpl; try reflexivity.
  - destruct b; reflexivity.
  - unfold py_le. simpl.
    destruct (Z.compare_spec n 0), (Z.ltb_spec 0 n);
      simpl; try reflexivity; lia.
Qed.

Section PluginVerdicts.

Variable py_repr : pyval -> result string.
Variable t : string.
Variable c : list (pyval * pyval).

Lemma check_enabled_judges :
  judges (enabled_ok c) (check_enabled py_repr (VStr t) (VDict c)).
Proof.
  unfold check_enabled, enabled_ok. cbn [py_contains py_getitem bind].
  destruct (dict_get c "enabled") as [v|]; cbn [and_then bind].
  - destruct (is_bool v); cbn [negb format_value bind];
      [apply judges_nothing | apply judges_one].
  - apply judges_nothing.
Qed.

Lemma check_threshold_judges :
  judges (threshold_ok c) (check_threshold py_repr (VStr t) (VDict c)).
Proof.
  unfold check_threshold, threshold_ok. cbn [py_contains py_get bind].
  destruct (dict_get c "threshold") as [first|];
    destruct (dict_get c "similarity_threshold") as [second|];
    cbn [or_else bind value_or_none py_truthy];
    try apply judges_nothing.
  - destruct (py_truthy first); cbn [bind];
      rewrite range_test_accepted; cbn [bind];
      match goal with
      | |- judges ?b _ => destruct b
      end; cbn [negb format_value bind];
    first [apply judges_nothing | apply judges_one].
  - destruct (py_truthy first); cbn [bind];
      rewrite range_test_accepted; cbn [bind];
      match goal with
      | |- judges ?b _ => destruct b
      end; cbn [negb format_value bind];
    first [apply judges_nothing | apply judges_one].
  - rewrite range_test_accepted; cbn [bind].
    match goal with
    | |- judges ?b _ => destruct b
    end; cbn [negb format_value bind];
    first [apply judges_nothing | apply judges_one].
Qed.

Lemma check_ttl_seconds_judges :
  judges (ttl_seconds_ok c)
         (check_ttl_seconds py_repr (VStr t) (VDict c)).
Proof.
  unfold check_ttl_seconds, ttl_seconds_ok. cbn [py_contains py_getitem bind].
  destruct (dict_get c "ttl_seconds") as [v|]; cbn [bind];
    [|apply judges_nothing].
  rewrite nonnegative_test. cbn [bind].
  match goal with
  | |- judges ?b _ => destruct b
  end; cbn [negb format_value bind];
    first [apply judges_nothing | apply judges_one].
Qed.

Lemma check_max_records_judges :
  judges (max_records_ok c)
         (check_max_records py_repr (VStr t) (VDict c)).
Proof.
  unfold check_max_records, max_records_ok. cbn [py_contains py_getitem bind].
  destruct (dict_get c "max_records") as [v|]; cbn [bind];
    [|apply judges_nothing].
  rewrite positive_test. cbn [bind].
  match goal with
  | |- judges ?b _ => destruct b
  end; cbn [negb format_value bind];
    first [apply judges_nothing | apply judges_one].
Qed.

Lemma check_mode_judges :
  judges (mode_ok c) (check_mode py_repr (VStr t) (VDict c)).
Proof.
  unfold check_mode, mode_ok. cbn [py_contains py_getitem bind].
  destruct (dict_get c "mode") as [v|]; cbn [and_then bind];
    [|apply judges_nothing].
  unfold in_strs. cbn [existsb]. rewrite orb_false_r.
  match goal with
  | |- judges ?b _ => destruct b
  end; cbn [negb format_value bind];
    first [apply judges_nothing | apply judges_one].
Qed.

End PluginVerdicts.

Lemma bool_eq_iff (a b : bool) : (a = true <-> b = true) -> a = b.
Proof. destruct a, b; intuition congruence. Qed.

Lemma length_eqb_nil {A : Type} (l : list A) :
  Nat.eqb (List.length l) 0 = true <-> l = [].
Proof. destruct l; simpl; split; congruence. Qed.

Ltac judges_here :=
  first
    [ exists []; split;
      [intros s; now rewrite app_nil_r | split; reflexivity]
    | eexists [_]; split; [intros s; reflexivity | split; discriminate]
    | eexists [_; _]; split;
      [ intros s; unfold append; now rewrite <- app_assoc
      | split; discriminate ] ].

Section Verdicts.

Variable py_repr : pyval -> result string.

Lemma check_required_judges (t : string) (c : list (pyval * pyval)) :
  judges (required_ok t c) (check_required py_repr (VStr t) (VDict c)).
Proof.
  unfold check_required, required_ok. apply for_each_judges.
  intros f _. cbn [py_contains bind].
  destruct (dict_get c f); cbn [negb];
    [apply judges_nothing | apply judges_one].
Qed.

Lemma check_configuration_judges (t : string) (c : list (pyval * pyval)) :
  judges (configuration_ok t c)
         (check_configuration py_repr (VStr t) (VDict c)).
Proof.
  unfold check_configuration, configuration_ok.
  eapply judges_as;
    [| apply judges_bind; [apply check_required_judges|];
       apply judges_bind; [apply check_enabled_judges|];
       apply judges_bind; [apply check_threshold_judges|];
       apply judges_bind; [apply check_ttl_seconds_judges|];
       apply judges_bind; [apply check_max_records_judges|];
       apply judges_bind; [apply check_mode_judges|];
       apply judges_nothing ].
  rewrite andb_true_r. now rewrite !andb_assoc.
Qed.

(** A plugin of the expected shape gets no defect exactly when it is
    well formed. *)
Lemma validate_plugin_verdict (plugin : pyval) :
  plugin_shaped py_repr plugin = true ->
  exists errs,
    validate_plugin py_repr plugin = Ok errs
    /\ (errs = [] <-> plugin_ok plugin = true).
Proof.
  unfold plugin_shaped, field_is, plugin_ok, formattable.
  destruct plugin as [ | | | | | |items]; simpl is_mapping;
    try discriminate.
  cbn [andb field]. intros Hshape.
  apply andb_prop in Hshape. destruct Hshape as [Htype Hconf].
  unfold validate_plugin. cbn [py_contains py_getitem].
  destruct (dict_get items "type") as [pt|]; cbn [bind negb];
    [|eexists; split; [reflexivity | split; discriminate]].
  destruct (in_strs pt SUPPORTED_PLUGINS) eqn:Hsup; cbn [negb].
  - destruct (in_strs_In _ _ Hsup) as (t & -> & Ht). rewrite Hsup.
    destruct (dict_get items "configuration") as [config|];
      cbn [bind negb format_value];
      [|eexists; split; [reflexivity | split; discriminate]].
    destruct config as [ | | | | | |c]; simpl in Hconf; try discriminate.
    destruct (check_configuration_judges t c) as (extra & E & I).
    rewrite E. exists extra. split; [reflexivity|]. exact I.
  - destruct (format_value py_repr pt) as [type_text|]; [|discriminate].
    cbn [bind].
    eexists. split; [reflexivity|]. split; [discriminate|].
    destruct pt; try discriminate. rewrite Hsup.
    destruct (dict_get items "configuration") as [[ | | | | | | ]|];
      discriminate.
Qed.

End Verdicts.

(** ** The defects of a document *)

Lemma reports_nothing {A : Type} :
  reports (A := A) [] true (fun s => Ok s).
Proof.
  split; [intros s; now rewrite app_nil_r | tauto].
Qed.

Lemma reports_one {A : Type} (x : A) :
  reports [x] false (fun s => Ok (append s x)).
Proof.
  split; [reflexivity | split; discriminate].
Qed.

Lemma reports_bind {A : Type} (e1 e2 : list A) (a b : bool)
      (f g : list A -> result (list A)) :
  reports e1 a f -> reports e2 b g ->
  reports (e1 ++ e2)%list (a && b) (fun s => s' <- f s ;; g s').
Proof.
  intros (H1 & I1) (H2 & I2). split.
  - intros s. rewrite H1. simpl. rewrite H2. now rewrite app_assoc.
  - rewrite andb_true_iff, <- I1, <- I2. split.
    + intros H. now apply app_eq_nil in H.
    + intros [-> ->]. reflexivity.
Qed.

Lemma reports_let {A : Type} (e1 e2 : list A) (a b : bool)
      (h : list A -> list A) (g : list A -> result (list A)) :
  reports e1 a (fun s => Ok (h s)) -> reports e2 b g ->
  reports (e1 ++ e2)%list (a && b) (fun s => g (h s)).
Proof.
  intros Hh Hg.
  exact (reports_bind e1 e2 a b (fun s => Ok (h s)) g Hh Hg).
Qed.

Lemma for_each_reports {A B : Type} (f : A -> list B) (ok : A -> bool)
      (body : A -> list B -> result (list B)) (l : list A) :
  (forall x, In x l -> reports (f x) (ok x) (body x)) ->
  reports (flat_map f l) (forallb ok l) (for_each body l).
Proof.
  induction l as [|x rest IH]; intros Hbody; simpl.
  - apply reports_nothing.
  - apply reports_bind.
    + apply Hbody. now left.
    + apply IH. intros y Hy. apply Hbody. now right.
Qed.

Lemma for_enumerate_reports {A : Type} (f : nat -> A -> list string)
      (ok : A -> bool)
      (body : nat -> A -> list string -> result (list string))
      (l : list A) :
  (forall i x, In x l -> reports (f i x) (ok x) (body i x)) ->
  forall i,
    reports (defects_from f i l) (forallb ok l) (for_enumerate body i l).
Proof.
  induction l as [|x rest IH]; intros Hbody i; simpl.
  - apply reports_nothing.
  - apply reports_bind.
    + apply Hbody. now left.
    + apply IH. intros j y Hy. apply Hbody. now right.
Qed.

Ltac reports_here :=
  split;
  [ intros s; unfold append; simpl;
    rewrite <- ?app_assoc, ?app_nil_r; reflexivity
  | simpl; split; first [reflexivity | discriminate] ].

Lemma check_endpoint_reports (i j : nat) (endpoint : pyval) :
  is_mapping endpoint = true ->
  reports (endpoint_defects i j endpoint) (endpoint_ok endpoint)
          (check_endpoint i j endpoint).
Proof.
  destruct endpoint as [ | | | | | |items]; simpl; try discriminate.
  intros _.
  unfold check_endpoint, endpoint_defects, endpoint_ok, missing_field,
    has_field.
  cbn [py_contains bind field].
  destruct (dict_get items "name"), (dict_get items "url");
    cbn [negb andb]; reports_here.
Qed.

Lemma sequence_reports (p ok : pyval -> bool)
      (f : nat -> pyval -> list string)
      (body : nat -> pyval -> list string -> result (list string))
      (o : option pyval) (absent : list string) (absent_ok : bool)
      (rest : list string -> result (list string)) :
  match o with Some v => is_sequence_of p v | None => true end = true ->
  (forall i x, p x = true -> reports (f i x) (ok x) (body i x)) ->
  reports absent absent_ok rest ->
  reports (sequence_defects f o absent) (all_of ok o absent_ok)
          (fun errors =>
             match o with
             | Some v =>
                 items <- py_iter v ;; for_enumerate body 0 items errors
             | None => rest errors
             end).
Proof.
  intros Hshape Hbody Hrest. destruct o as [v|]; [|exact Hrest].
  destruct v as [ | | | | |l| ]; simpl in Hshape; try discriminate.
  cbn [py_iter bind all_of sequence_defects].
  apply for_enumerate_reports.
  intros i x Hin. apply Hbody.
  rewrite forallb_forall in Hshape. now apply Hshape.
Qed.

Lemma check_listener_reports (i : nat) (listener : pyval) :
  listener_shaped listener = true ->
  reports (listener_defects i listener) (listener_ok listener)
          (check_listener i listener).
Proof.
  unfold listener_shaped, field_is, listener_ok, listener_defects,
    port_defects.
  destruct listener as [ | | | | | |items]; simpl is_mapping;
    try discriminate.
  cbn [andb field]. intros Hshape.
  unfold check_listener. cbn [py_contains py_getitem bind].
  apply reports_bind.
  - destruct (dict_get items "port") as [port|]; cbn [negb bind].
    + rewrite positive_test. cbn [bind]. unfold port_ok.
      match goal with
      | |- reports (if ?b then _ else _) _ _ => destruct b
      end; cbn [negb]; first [apply reports_nothing | apply reports_one].
    + apply reports_one.
  - pose proof (sequence_reports is_mapping endpoint_ok
                  (endpoint_defects i) (check_endpoint i)
                  (dict_get items "endpoints") [] true (fun s => Ok s)
                  Hshape (fun j x Hx => check_endpoint_reports i j x Hx)
                  reports_nothing) as H.
    destruct (dict_get items "endpoints"); exact H.
Qed.

Section DocumentDefects.

Variable py_repr : pyval -> result string.

Lemma check_plugin_reports (i : nat) (plugin : pyval) :
  plugin_shaped py_repr plugin = true ->
  reports (map (fun e => "Decision " ++ str_of_nat i ++ ": " ++ e)
               (plugin_defects py_repr plugin))
          (plugin_ok plugin) (check_plugin py_repr i plugin).
Proof.
  intros Hshape. unfold check_plugin, plugin_defects.
  destruct (validate_plugin_verdict py_repr plugin Hshape)
    as (errs & -> & I).
  cbn [bind]. split; [intros s; reflexivity|].
  rewrite <- I. destruct errs; simpl; split; congruence.
Qed.

Lemma plugins_reports (i : nat) (o : option pyval) :
  match o with
  | Some v => is_sequence_of (plugin_shaped py_repr) v
  | None => true
  end = true ->
  reports (plugins_defects py_repr i o) (all_of plugin_ok o true)
    (fun errors =>
       match o with
       | Some v => items <- py_iter v ;;
                   for_each (check_plugin py_repr i) items errors
       | None => Ok errors
       end).
Proof.
  intros Hshape. destruct o as [v|]; [|apply reports_nothing].
  destruct v as [ | | | | |l| ]; simpl in Hshape; try discriminate.
  cbn [py_iter bind all_of plugins_defects]. apply for_each_reports.
  intros x Hin. apply check_plugin_reports.
  rewrite forallb_forall in Hshape. now apply Hshape.
Qed.

Lemma check_decision_reports (i : nat) (decision : pyval) :
  decision_shaped py_repr decision = true ->
  reports (decision_defects py_repr i decision) (decision_ok decision)
          (check_decision py_repr i decision).
Proof.
  unfold decision_shaped, field_is, decision_ok, decision_defects,
    missing_field, has_field.
  destruct decision as [ | | | | | |items]; simpl is_mapping;
    try discriminate.
  cbn [andb field]. intros Hshape.
  unfold check_decision. cbn [py_contains py_getitem bind].
  pose proof (plugins_reports i (dict_get items "plugins") Hshape) as Hp.
  rewrite app_assoc.
  match goal with
  | |- reports (?e ++ _)%list (?a && _)
               (fun errors => if _ then _ else Ok (@?h errors)) =>
      assert (Hh : reports e a (fun s => Ok (h s)))
  end.
  { destruct (dict_get items "name"), (dict_get items "endpoint");
      cbn [negb andb]; reports_here. }
  destruct (dict_get items "plugins"); cbn [bind];
    exact (reports_let _ _ _ _ _ _ Hh Hp).
Qed.

(** On a document of the expected shapes [validate_config] returns the
    defects of the document, and it is valid exactly when the document
    is well formed. *)
Lemma validate_config_verdict (doc : pyval) :
  document_shaped py_repr doc = true ->
  validate_config py_repr doc
  = Ok {| valid := document_ok doc;
          errors := document_defects py_repr doc |}.
Proof.
  unfold document_shaped, field_is.
  destruct doc as [ | | | | | |items]; simpl is_mapping; try discriminate.
  cbn [andb field]. intros Hshape.
  apply andb_prop in Hshape. destruct Hshape as [Hl Hd].
  unfold validate_config. cbn [py_contains py_getitem bind].
  pose proof (sequence_reports listener_shaped listener_ok
                listener_defects check_listener
                (dict_get items "listeners")
                ["Configuration missing 'listeners' field"] false
                (fun s =>
                   Ok (append s "Configuration missing 'listeners' field"))
                Hl (fun i x Hx => check_listener_reports i x Hx)
                (reports_one _)) as (EL & IL).
  pose proof (sequence_reports (decision_shaped py_repr) decision_ok
                (decision_defects py_repr) (check_decision py_repr)
                (dict_get items "decisions") [] true (fun s => Ok s)
                Hd (fun i x Hx => check_decision_reports i x Hx)
                reports_nothing) as (ED & ID).
  set (eL := sequence_defects listener_defects _ _) in *.
  set (eD := sequence_defects (decision_defects py_repr) _ _) in *.
  assert (EL' : forall s,
             (if negb match dict_get items "listeners" with
                      | Some _ => true | None => false end
              then Ok (append s "Configuration missing 'listeners' field")
              else listeners <- match dict_get items "listeners" with
                                | Some v => Ok v
                                | None => Raise KeyError
                                end ;;
                   l <- py_iter listeners ;;
                   for_enumerate check_listener 0 l s)
             = Ok (s ++ eL)%list).
  { intros s. rewrite <- EL. now destruct (dict_get items "listeners"). }
  assert (ED' : forall s,
             (if match dict_get items "decisions" with
                 | Some _ => true | None => false end
              then decisions <- match dict_get items "decisions" with
                                | Some v => Ok v
                                | None => Raise KeyError
                                end ;;
                   l <- py_iter decisions ;;
                   for_enumerate (check_decision py_repr) 0 l s
              else Ok s)
             = Ok (s ++ eD)%list).
  { intros s. rewrite <- ED. now destruct (dict_get items "decisions"). }
  rewrite EL'. cbn [bind]. rewrite ED'. cbn [bind].
  unfold document_defects, document_ok, missing_field, has_field.
  cbn [field]. fold eL eD.
  clearbody eL eD.
  destruct (dict_get items "version"); unfold append; cbn [negb app andb];
    [|reflexivity].
  f_equal. f_equal. apply bool_eq_iff.
  rewrite length_eqb_nil, andb_true_iff, <- IL, <- ID. split.
  - intros H. now apply app_eq_nil in H.
  - intros [-> ->]. reflexivity.
Qed.

End DocumentDefects.


(** The [valid] flag is computed from the error list. *)
Lemma valid_counts_errors (py_repr : pyval -> result string) (doc : pyval)
      (res : ValidationResult) :
  validate_config py_repr doc = Ok res ->
  valid res = Nat.eqb (List.length (errors res)) 0.
Proof.
  unfold validate_config. intros H.
  repeat bind_inv H. now injection H as <-.
Qed.

Section Acceptance.

Variable py_repr : pyval -> result string.

(** C1 (amended): on a document of the expected shapes (the document a
    mapping; [listeners] and [decisions], when present, sequences of
    mappings; [endpoints] and [plugins], when present, sequences of
    mappings; a plugin with a [type] that can be rendered as text and a
    [configuration] mapping) [validate_config] returns a result, whatever
    keys are missing.  Its [errors] are exactly the defects of the
    document, listed in the order version, listeners (port, then
    endpoints), decisions (name, endpoint, then plugins): every listener,
    endpoint, decision and plugin is visited.  It is [valid] exactly when
    the document is well formed, and a missing [version] or [listeners]
    key shows as its defect string. *)
Theorem validate_config_returns_on_shaped (doc : pyval) :
  document_shaped py_repr doc = true ->
  exists res,
    validate_config py_repr doc = Ok res
    /\ errors res = document_defects py_repr doc
    /\ valid res = document_ok doc
    /\ (has_field "version" doc = false ->
        In "Configuration missing 'version' field" (errors res))
    /\ (has_field "listeners" doc = false ->
        In "Configuration missing 'listeners' field" (errors res)).
Proof.
  intros Hshape. eexists.
  split; [exact (validate_config_verdict py_repr doc Hshape)|].
  cbn [errors valid]. split; [reflexivity|]. split; [reflexivity|].
  unfold document_defects, missing_field, has_field, sequence_defects.
  split.
  - intros H. destruct (field "version" doc); [discriminate|].
    now left.
  - intros H. apply in_or_app. right. apply in_or_app. left.
    destruct (field "listeners" doc); [discriminate|]. now left.
Qed.

(** X1: a plugin mapping whose [type] is not a supported one gets exactly
    the one defect naming that type, rendered as text; when the type
    cannot be rendered (an integer of more than 4300 digits, or a
    container holding one) the rendering's exception is raised instead.
    The configuration is not looked at. *)
Theorem validate_plugin_unsupported_type (plugin pt : pyval) :
  field "type" plugin = Some pt ->
  in_strs pt SUPPORTED_PLUGINS = false ->
  validate_plugin py_repr plugin
  = (type_text <- format_value py_repr pt ;;
     Ok ["Unsupported plugin type: " ++ type_text]).
Proof.
  intros Htype Hsup.
  destruct plugin as [ | | | | | |items]; simpl in Htype; try discriminate.
  unfold validate_plugin. cbn [py_contains py_getitem].
  rewrite Htype. cbn [bind negb]. now rewrite Hsup.
Qed.

(** X2: a plugin mapping of a supported type without a [configuration]
    key gets exactly the one defect saying so. *)
Theorem validate_plugin_missing_configuration (plugin : pyval) (t : string) :
  In t SUPPORTED_PLUGINS ->
  field "type" plugin = Some (VStr t) ->
  has_field "configuration" plugin = false ->
  validate_plugin py_repr plugin
  = Ok ["Plugin '" ++ t ++ "' missing 'configuration' field"].
Proof.
  unfold has_field. intros Ht Htype Hconf.
  destruct plugin as [ | | | | | |items]; simpl in Htype; try discriminate.
  simpl in Hconf.
  unfold validate_plugin. cbn [py_contains py_getitem].
  rewrite Htype. cbn [bind negb]. rewrite (In_in_strs t _ Ht). cbn [negb].
  destruct (dict_get items "configuration"); [discriminate|]. reflexivity.
Qed.

(** X3: the result for a plugin of a supported type depends on its
    configuration mapping only through the six keys the checks read:
    two configurations that agree on them get the same result, so other
    fields and the order of the fields are ignored. *)
Theorem validate_plugin_reads_checked_keys (plugin plugin' : pyval)
        (t : string) (c c' : list (pyval * pyval)) :
  In t SUPPORTED_PLUGINS ->
  field "type" plugin = Some (VStr t) ->
  field "configuration" plugin = Some (VDict c) ->
  field "type" plugin' = Some (VStr t) ->
  field "configuration" plugin' = Some (VDict c') ->
  (forall k, In k CHECKED_KEYS -> dict_get c k = dict_get c' k) ->
  validate_plugin py_repr plugin = validate_plugin py_repr plugin'.
Proof.
  intros Ht Htype Hconf Htype' Hconf' Hagree.
  destruct plugin as [ | | | | | |items]; simpl in Htype; try discriminate.
  destruct plugin' as [ | | | | | |items']; simpl in Htype';
    try discriminate.
  simpl in Hconf, Hconf'.
  rewrite (validate_plugin_supported py_repr items t (VDict c))
    by assumption.
  rewrite (validate_plugin_supported py_repr items' t (VDict c'))
    by assumption.
  assert (E1 := Hagree "enabled"). assert (E2 := Hagree "threshold").
  assert (E3 := Hagree "similarity_threshold").
  assert (E4 := Hagree "ttl_seconds"). assert (E5 := Hagree "max_records").
  assert (E6 := Hagree "mode").
  unfold CHECKED_KEYS in *. simpl in E1, E2, E3, E4, E5, E6.
  apply (supported_cases t) with (1 := Ht);
    unfold check_configuration, check_required, check_enabled,
      check_threshold, check_ttl_seconds, check_max_records, check_mode;
    cbn [schema_required schemas_get PLUGIN_SCHEMAS String.eqb Ascii.eqb
         Bool.eqb required for_each py_contains py_getitem py_get];
    rewrite E1, E2, E3, E4, E5, E6 by tauto; reflexivity.
Qed.

(** X4: a plugin mapping of a supported type with a configuration
    mapping always gets a result, and gets no defect exactly when the
    configuration is well formed: the required fields are present,
    [enabled] is a boolean, the threshold looked at is accepted,
    [ttl_seconds] is an integer [>= 0], [max_records] an integer [> 0],
    [mode] is "replace" or "insert" (each where present). *)
Theorem validate_plugin_accepts_iff (plugin : pyval) (t : string)
        (c : list (pyval * pyval)) :
  In t SUPPORTED_PLUGINS ->
  field "type" plugin = Some (VStr t) ->
  field "configuration" plugin = Some (VDict c) ->
  exists errs,
    validate_plugin py_repr plugin = Ok errs
    /\ (errs = [] <-> configuration_ok t c = true).
Proof.
  intros Ht Htype Hconf.
  destruct plugin as [ | | | | | |items]; simpl in Htype; try discriminate.
  simpl in Hconf.
  rewrite (validate_plugin_supported py_repr items t (VDict c))
    by assumption.
  destruct (check_configuration_judges py_repr t c) as (extra & E & I).
  rewrite E. exists extra. split; [reflexivity | exact I].
Qed.

(** X5: when [threshold] is absent or falsy, [similarity_threshold] is
    the value checked: one in [0.0, 1.0], 0.0 included, raises no
    threshold defect. *)
Theorem similarity_threshold_checked_instead (plugin : pyval) (t : string)
        (c : list (pyval * pyval)) (w : pyval) :
  In t SUPPORTED_PLUGINS ->
  field "type" plugin = Some (VStr t) ->
  field "configuration" plugin = Some (VDict c) ->
  py_truthy (value_or_none (dict_get c "threshold")) = false ->
  dict_get c "similarity_threshold" = Some w ->
  in_unit_interval w ->
  exists errs,
    validate_plugin py_repr plugin = Ok errs
    /\ count_threshold_defects errs = 0%nat.
Proof.
  intros Ht Htype Hconf Hfalsy Hw Hunit.
  apply (validate_plugin_threshold_count py_repr plugin t c []);
    try assumption.
  intros s. unfold check_threshold. cbn [py_contains py_get].
  rewrite Hw.
  destruct (dict_get c "threshold") as [v|]; cbn [value_or_none] in Hfalsy;
    cbn [or_else bind]; rewrite ?Hfalsy; cbn [py_truthy bind];
    rewrite (range_test_in_unit w Hunit); cbn [bind];
    now rewrite app_nil_r.
Qed.

(** X8: on a document of the expected container shapes the result's
    [valid] flag is true exactly when the document is well formed: it has
    a [version], a [listeners] sequence whose entries each have a port
    that is an integer [> 0] and endpoints with [name] and [url], and its
    decisions, if any, each have [name], [endpoint] and only well-formed
    plugins. *)
Theorem validate_config_accepts_iff (doc : pyval) :
  document_shaped py_repr doc = true ->
  exists res,
    validate_config py_repr doc = Ok res
    /\ valid res = document_ok doc
    /\ (errors res = [] <-> document_ok doc = true).
Proof.
  intros Hshape.
  pose proof (validate_config_verdict py_repr doc Hshape) as V.
  eexists. split; [exact V|]. split; [reflexivity|].
  pose proof (valid_counts_errors py_repr doc _ V) as H.
  cbn [valid errors] in *. rewrite H. symmetry. apply length_eqb_nil.
Qed.

(** X9: a document in which neither "listeners" nor "decisions" is found
    (a mapping without them, but also a sequence or a text) is answered
    with the defect for the missing [listeners], after the one for
    [version] if that is not found either, and nothing else. *)
Theorem validate_config_without_listeners (doc : pyval) :
  py_contains "listeners" doc = Ok false ->
  py_contains "decisions" doc = Ok false ->
  exists has_version,
    py_contains "version" doc = Ok has_version
    /\ validate_config py_repr doc
       = Ok {| valid := false;
               errors :=
                 (if has_version then []
                  else ["Configuration missing 'version' field"])
                 ++ ["Configuration missing 'listeners' field"] |}.
Proof.
  intros Hl Hd. unfold validate_config. rewrite Hl, Hd.
  destruct (py_contains "version" doc) as [hv|e] eqn:Hv.
  - exists hv. split; [reflexivity|]. destruct hv; reflexivity.
  - destruct doc; simpl in *; discriminate.
Qed.

End Acceptance.

(** ** What the generator produces *)

Section GeneratedDocument.

Variable py_repr : pyval -> result string.

Lemma generate_document_in_use (items : list (pyval * pyval)) :
  generate_document py_repr (VDict items)
  = (l <- py_iter (endpoints_in_use items) ;;
     decisions <- for_each
                    (make_decision py_repr
                       (match dict_get items "plugins" with
                        | Some v => v
                        | None => VList []
                        end)) l [] ;;
     Ok (VDict
           [ (VStr "version", version_in_use items);
             (VStr "listeners",
              VList [ VDict [ (VStr "port", port_in_use items);
                              (VStr "endpoints", endpoints_in_use items) ] ]);
             (VStr "decisions", VList decisions) ])).
Proof.
  rewrite generate_document_mapping. unfold endpoints_in_use.
  destruct (dict_get items "endpoints") as [v|]; cbv zeta;
    [destruct (py_truthy v)|]; reflexivity.
Qed.

Lemma make_decision_inv (items : list (pyval * pyval))
      (endpoint : pyval) (decisions out : list pyval) :
  make_decision py_repr
    (match dict_get items "plugins" with
     | Some v => v
     | None => VList []
     end) endpoint decisions = Ok out ->
  exists name name_text,
    field "name" endpoint = Some name
    /\ format_value py_repr name = Ok name_text
    /\ out = (decisions ++ [route_for items name name_text])%list.
Proof.
  unfold make_decision, route_for, plugins_in_use.
  destruct endpoint as [ | | | | | |fields]; cbn [py_getitem field bind];
    try discriminate.
  destruct (dict_get fields "name") as [name|]; cbn [bind];
    [|discriminate].
  destruct (format_value py_repr name) as [name_text|] eqn:Htext;
    cbn [bind]; [|discriminate].
  intros [= <-]. exists name, name_text.
  split; [reflexivity|]. split; [exact Htext|].
  destruct (dict_get items "plugins") as [v|]; simpl;
    [destruct (py_truthy v)|]; reflexivity.
Qed.

Lemma make_decisions_inv (items : list (pyval * pyval)) (l : list pyval) :
  forall decisions out,
    for_each
      (make_decision py_repr
         (match dict_get items "plugins" with
          | Some v => v
          | None => VList []
          end)) l decisions = Ok out ->
    exists made,
      out = (decisions ++ made)%list
      /\ Forall2 (fun endpoint decision =>
                    exists name name_text,
                      field "name" endpoint = Some name
                      /\ format_value py_repr name = Ok name_text
                      /\ decision = route_for items name name_text)
                 l made.
Proof.
  induction l as [|endpoint rest IH]; simpl; intros decisions out H.
  - injection H as <-. exists []. split; [now rewrite app_nil_r|constructor].
  - bind_inv H. apply make_decision_inv in E.
    destruct E as (name & name_text & Hname & Htext & ->).
    destruct (IH _ _ H) as (made & -> & Hmade).
    exists (route_for items name name_text :: made). split.
    + now rewrite <- app_assoc.
    + constructor; eauto.
Qed.

(** X10: whenever [generate_config] gets to serialise a document, that
    document is the mapping with the keys [version], [listeners],
    [decisions] in this order; [version] and [port] are the supplied
    values or "1.0" and 8888; there is one listener, holding the endpoints
    in use; and there is one decision per endpoint visited, in the same
    order, each with exactly [name] (the endpoint's name, rendered as
    text, followed by "_route"), [endpoint] and, when plugins were
    supplied, [plugins]. *)
Theorem generate_document_shape (params doc : pyval) :
  generate_document py_repr params = Ok doc ->
  exists items visited decisions,
    params = VDict items
    /\ py_iter (endpoints_in_use items) = Ok visited
    /\ doc = VDict
               [ (VStr "version", version_in_use items);
                 (VStr "listeners",
                  VList [ VDict [ (VStr "port", port_in_use items);
                                  (VStr "endpoints",
                                   endpoints_in_use items) ] ]);
                 (VStr "decisions", VList decisions) ]
    /\ Forall2 (fun endpoint decision =>
                  exists name name_text,
                    field "name" endpoint = Some name
                    /\ format_value py_repr name = Ok name_text
                    /\ decision = route_for items name name_text)
               visited decisions.
Proof.
  intros H.
  destruct params as [ | | | | | |items]; try discriminate H.
  rewrite generate_document_in_use in H.
  bind_inv H. bind_inv H. injection H as <-.
  apply make_decisions_inv in E0. destruct E0 as (made & -> & Hmade).
  exists items, a, made. repeat split; assumption.
Qed.

Lemma endpoints_in_use_nonempty (items : list (pyval * pyval))
      (l : list pyval) :
  endpoints_in_use items = VList l -> l <> [].
Proof.
  unfold endpoints_in_use.
  destruct (dict_get items "endpoints") as [v|];
    [destruct (py_truthy v) eqn:T|]; intros H Hnil; subst;
    discriminate.
Qed.

Lemma make_decisions_raise (plugins : pyval) (l : list pyval) :
  forallb (has_usable_name py_repr) l = false ->
  forall decisions,
  exists e, for_each (make_decision py_repr plugins) l decisions = Raise e.
Proof.
  induction l as [|endpoint rest IH]; simpl; intros Hnamed decisions;
    [discriminate|].
  destruct (has_usable_name py_repr endpoint) eqn:Hhead.
  - destruct (make_decision_named py_repr plugins endpoint decisions Hhead)
      as (decision & -> & _).
    cbn [bind]. apply IH. exact Hnamed.
  - unfold make_decision. unfold has_usable_name, formattable in Hhead.
    destruct endpoint as [ | | | | | |fields];
      cbn [py_getitem bind]; eauto.
    cbn [field] in Hhead.
    destruct (dict_get fields "name") as [name|]; cbn [bind]; eauto.
    destruct (format_value py_repr name); [discriminate|].
    cbn [bind]. eauto.
Qed.

(** X11: for a parameter mapping whose endpoints in use are a list,
    [generate_config] builds a document exactly when every entry of the
    list is a mapping with a [name] that can be rendered as text;
    otherwise it raises. *)
Theorem generate_document_returns_iff (items : list (pyval * pyval))
        (l : list pyval) :
  endpoints_in_use items = VList l ->
  (exists doc, generate_document py_repr (VDict items) = Ok doc)
  <-> forallb (has_usable_name py_repr) l = true.
Proof.
  intros Huse. rewrite generate_document_in_use, Huse. cbn [py_iter bind].
  split.
  - intros (doc & H).
    destruct (forallb (has_usable_name py_repr) l) eqn:Hnamed;
      [reflexivity|].
    destruct (make_decisions_raise
                (match dict_get items "plugins" with
                 | Some v => v
                 | None => VList []
                 end) l Hnamed []) as (e & E).
    rewrite E in H. discriminate H.
  - intros Hnamed.
    destruct (make_decisions_named py_repr
                (match dict_get items "plugins" with
                 | Some v => v
                 | None => VList []
                 end) l Hnamed []) as (made & -> & _).
    cbn [bind]. eauto.
Qed.

End GeneratedDocument.

(** ** Generating, then validating *)

Lemma forallb_const {A : Type} (b : bool) (l : list A) :
  l <> [] -> forallb (fun _ => b) l = b.
Proof.
  destruct l as [|x rest]; [intros H; now contradiction H|]. intros _.
  induction rest as [|y rest IH] in x |- *; simpl in *.
  - apply andb_true_r.
  - rewrite (IH y). now destruct b.
Qed.

Lemma has_field_is_mapping (k : string) (x : pyval) :
  has_field k x = true -> is_mapping x = true.
Proof.
  destruct x; intros H; try reflexivity; discriminate H.
Qed.

Section GenerateThenValidate.

Variable py_repr : pyval -> result string.
Variable items : list (pyval * pyval).

Lemma route_for_decision_ok (name : pyval) (name_text : string) :
  decision_ok (route_for items name name_text)
  = all_of plugin_ok (plugins_in_use items) true.
Proof.
  unfold route_for. destruct (plugins_in_use items); reflexivity.
Qed.

Lemma route_for_decision_shaped (name : pyval) (name_text : string) :
  match plugins_in_use items with
  | Some p => is_sequence_of (plugin_shaped py_repr) p
  | None => true
  end = true ->
  decision_shaped py_repr (route_for items name name_text) = true.
Proof.
  unfold route_for, decision_shaped, field_is.
  destruct (plugins_in_use items); simpl; auto.
Qed.

Lemma routes_forallb (f : pyval -> bool) (b : bool)
      (l made : list pyval) :
  (forall name name_text, f (route_for items name name_text) = b) ->
  Forall2 (fun endpoint decision =>
             exists name name_text,
               field "name" endpoint = Some name
               /\ format_value py_repr name = Ok name_text
               /\ decision = route_for items name name_text)
          l made ->
  l <> [] ->
  forallb f made = b.
Proof.
  intros Hf Hmade Hne.
  assert (E : forallb f made = forallb (fun _ => b) made).
  { clear Hne. induction Hmade
      as [|x y l made (name & name_text & _ & _ & ->) _ IH];
      simpl; [reflexivity|]. now rewrite Hf, IH. }
  rewrite E. apply forallb_const.
  destruct Hmade; congruence.
Qed.

Lemma usable_name_has_name (x : pyval) :
  has_usable_name py_repr x = true -> has_field "name" x = true.
Proof.
  unfold has_usable_name, has_field.
  destruct (field "name" x); [reflexivity | discriminate].
Qed.

Lemma named_endpoints_ok (l : list pyval) :
  forallb (has_usable_name py_repr) l = true ->
  forallb endpoint_ok l = forallb (has_field "url") l
  /\ forallb is_mapping l = true.
Proof.
  induction l as [|x rest IH]; simpl; [auto|].
  intros H. apply andb_prop in H. destruct H as [Hx Hrest].
  apply usable_name_has_name in Hx.
  destruct (IH Hrest) as [-> ->]. unfold endpoint_ok. rewrite Hx.
  now rewrite (has_field_is_mapping _ _ Hx).
Qed.

(** The generated document is validated without raising, and the verdict
    is read off the parameters. *)
Lemma generated_document_verdict (l : list pyval) :
  endpoints_in_use items = VList l ->
  forallb (has_usable_name py_repr) l = true ->
  match plugins_in_use items with
  | Some p => is_sequence_of (plugin_shaped py_repr) p
  | None => true
  end = true ->
  exists doc res,
    generate_document py_repr (VDict items) = Ok doc
    /\ validate_config py_repr doc = Ok res
    /\ valid res
       = port_ok (port_in_use items)
         && forallb (has_field "url") l
         && all_of plugin_ok (plugins_in_use items) true.
Proof.
  intros Huse Hnamed Hplugins.
  pose proof (endpoints_in_use_nonempty items l Huse) as Hne.
  destruct (named_endpoints_ok l Hnamed) as [Hurl Hmaps].
  rewrite generate_document_in_use, Huse. cbn [py_iter bind].
  destruct (make_decisions_named py_repr
              (match dict_get items "plugins" with
               | Some v => v
               | None => VList []
               end) l Hnamed []) as (made & E & _).
  pose proof (make_decisions_inv py_repr items l [] _ E)
    as (made' & Heq & Hmade).
  simpl in Heq. subst made'. rewrite E. cbn [bind].
  eexists.
  assert (Hshapes : forallb (decision_shaped py_repr) made = true).
  { apply (routes_forallb (decision_shaped py_repr) true l made);
      try assumption.
    intros name name_text. now apply route_for_decision_shaped. }
  assert (Hoks : forallb decision_ok made
                 = all_of plugin_ok (plugins_in_use items) true).
  { apply (routes_forallb decision_ok _ l made); try assumption.
    intros name name_text. apply route_for_decision_ok. }
  match goal with
  | |- exists res, Ok ?d = Ok _ /\ _ =>
      pose proof (validate_config_verdict py_repr d) as Hres
  end.
  eexists. split; [reflexivity|]. split.
  { apply Hres.
    unfold document_shaped, field_is, listener_shaped. simpl.
    unfold field_is. simpl. rewrite Hmaps, Hshapes. reflexivity. }
  cbn [valid]. unfold document_ok, has_field, listener_ok. simpl.
  rewrite Hurl, Hoks. now rewrite !andb_true_r.
Qed.

(** X12: when the endpoints in use are a list of mappings each with a
    [name] that can be rendered as text, and the plugins in use, if any,
    are a sequence of plugin mappings (each with a [type] that can be
    rendered as text and a [configuration] mapping), the document is
    generated and is validated without raising, and
    it is valid exactly when the port in use is an integer [> 0], every
    endpoint has a [url], and every plugin is well formed. *)
Theorem generated_document_valid_iff (l : list pyval) :
  endpoints_in_use items = VList l ->
  forallb (has_usable_name py_repr) l = true ->
  match plugins_in_use items with
  | Some p => is_sequence_of (plugin_shaped py_repr) p
  | None => true
  end = true ->
  exists doc res,
    generate_document py_repr (VDict items) = Ok doc
    /\ validate_config py_repr doc = Ok res
    /\ valid res
       = port_ok (port_in_use items)
         && forallb (has_field "url") l
         && all_of plugin_ok (plugins_in_use items) true
    /\ (errors res = []
        <-> port_ok (port_in_use items) = true
            /\ forallb (has_field "url") l = true
            /\ all_of plugin_ok (plugins_in_use items) true = true).
Proof.
  intros Huse Hnamed Hplugins.
  destruct (generated_document_verdict l Huse Hnamed Hplugins)
    as (doc & res & G & V & I).
  exists doc, res.
  split; [exact G|]. split; [exact V|]. split; [exact I|].
  assert (E : errors res = [] <-> valid res = true).
  { rewrite (valid_counts_errors py_repr doc res V).
    symmetry. apply length_eqb_nil. }
  rewrite E, I, !andb_true_iff. tauto.
Qed.

End GenerateThenValidate.

(** ** What the handlers answer *)

Lemma known_template_cases (name : string) :
  has_field name CONFIGURATION_TEMPLATES = true ->
  name = "basic" \/ name = "cached" \/ name = "secure"
  \/ name = "multi-model".
Proof.
  unfold has_field, field, CONFIGURATION_TEMPLATES, dict_of.
  cbn [map dict_get fst snd eq_str].
  destruct (String.eqb_spec name "basic"); [tauto|].
  destruct (String.eqb_spec name "cached"); [tauto|].
  destruct (String.eqb_spec name "secure"); [tauto|].
  destruct (String.eqb_spec name "multi-model"); [tauto|].
  discriminate.
Qed.

Section HandlerAnswers.

Variable py_repr : pyval -> result string.
Variable yaml_dump : pyval -> result string.
Variable safe_load : pyval -> pyval + raised.

(** X13: for a non-empty parameter mapping whose endpoints in use are a
    list of mappings each with a [name] that can be rendered as text and
    whose plugins in use, if any, are a sequence of plugin mappings, and
    a parser that reads back the document from whatever text the
    serialiser returns for it, the [/generate] handler answers 500 when
    the serialiser raises; otherwise it answers 200 with the serialised
    document if the port in use is an integer [> 0], every endpoint has
    a [url] and every plugin is well formed, and else 400 with the
    validation defects. *)
Theorem generate_answers (items : list (pyval * pyval)) (l : list pyval) :
  items <> [] ->
  endpoints_in_use items = VList l ->
  forallb (has_usable_name py_repr) l = true ->
  match plugins_in_use items with
  | Some p => is_sequence_of (plugin_shaped py_repr) p
  | None => true
  end = true ->
  (forall doc text,
      generate_document py_repr (VDict items) = Ok doc ->
      yaml_dump doc = Ok text ->
      safe_load (VStr text) = inl doc) ->
  exists doc res,
    generate_document py_repr (VDict items) = Ok doc
    /\ validate_config py_repr doc = Ok res
    /\ valid res
       = port_ok (port_in_use items)
         && forallb (has_field "url") l
         && all_of plugin_ok (plugins_in_use items) true
    /\ generate py_repr yaml_dump safe_load (VDict items)
       = match yaml_dump doc with
         | Raise e => ErrorResponse (PyError e)
         | Ok text =>
             if valid res
             then YamlResponse text 200
             else JsonResponse
                    (dict_of
                       [ ("error",
                          VStr "Generated configuration is invalid");
                         ("validation_errors",
                          VList (map VStr (errors res))) ])
                    400
         end.
Proof.
  intros Hne Huse Hnamed Hplugins Hround.
  destruct (generated_document_verdict py_repr items l Huse Hnamed Hplugins)
    as (doc & res & G & V & I).
  exists doc, res. repeat split; try assumption.
  unfold generate, generate_config.
  destruct items as [|kv rest]; [congruence|].
  cbn [py_truthy negb]. rewrite G. cbn [bind].
  destruct (yaml_dump doc) as [text|e] eqn:Hdump; cbn [bind catching];
    [|reflexivity].
  rewrite (Hround doc text G Hdump), V. cbn [bind].
  destruct (valid res); reflexivity.
Qed.

(** X14: when the request's [config] text parses to a document of the
    expected shapes (containers where the validator expects them, plugin
    types that can be rendered as text), the [/validate] handler answers
    200 with the validation result, whose [valid] flag is true exactly
    when the document is well formed and whose [errors] are the defects
    of the document. *)
Theorem validate_answers_verdict (data text doc : pyval) :
  field "config" data = Some text ->
  safe_load text = inl doc ->
  document_shaped py_repr doc = true ->
  exists res,
    validate_config py_repr doc = Ok res
    /\ valid res = document_ok doc
    /\ errors res = document_defects py_repr doc
    /\ validate py_repr safe_load data
       = JsonResponse (result_value res) 200.
Proof.
  intros Hconfig Hload Hshape.
  pose proof (validate_config_verdict py_repr doc Hshape) as V.
  eexists. split; [exact V|]. split; [reflexivity|].
  split; [reflexivity|].
  destruct data as [ | | | | | |items]; simpl in Hconfig; try discriminate.
  unfold validate. cbn [py_contains py_getitem].
  destruct items as [|kv rest]; [discriminate|].
  cbn [py_truthy negb or_else]. rewrite Hconfig. cbn [bind negb].
  now rewrite Hload, V.
Qed.

(** X15: a [config] text that fails to parse is answered 200 with
    [valid] false and the single defect "Invalid YAML: ..."; one that
    parses to no container -- [None] for an empty text, a boolean, a
    number -- is answered 500, the validator having raised
    [TypeError]. *)
Theorem validate_answers_unparsed_or_scalar (data text : pyval) :
  field "config" data = Some text ->
  match safe_load text with
  | inr (YAMLError message) =>
      validate py_repr safe_load data
      = JsonResponse
          (dict_of [ ("valid", VBool false);
                     ("errors",
                      VList [VStr ("Invalid YAML: " ++ message)]) ])
          200
  | inr (PyError e) =>
      validate py_repr safe_load data = ErrorResponse (PyError e)
  | inl doc =>
      is_scalar doc = true ->
      validate py_repr safe_load data = ErrorResponse (PyError TypeError)
  end.
Proof.
  intros Hconfig.
  destruct data as [ | | | | | |items]; simpl in Hconfig; try discriminate.
  unfold validate. cbn [py_contains py_getitem].
  destruct items as [|kv rest]; [discriminate|].
  cbn [py_truthy negb or_else]. rewrite Hconfig. cbn [bind negb].
  destruct (safe_load text) as [doc|[e|message]]; try reflexivity.
  intros Hscalar. destruct doc; try discriminate Hscalar; reflexivity.
Qed.

(** The handler on a name of the catalog, given the document generated
    from the template's [config]. *)
Lemma get_template_known (name : string) (template config doc : pyval) :
  field name CONFIGURATION_TEMPLATES = Some template ->
  field "config" template = Some config ->
  generate_document py_repr config = Ok doc ->
  get_template py_repr yaml_dump name
  = match yaml_dump doc with
    | Ok text => YamlResponse text 200
    | Raise e => ErrorResponse (PyError e)
    end.
Proof.
  intros Htemplate Hconfig G.
  unfold get_template, generate_config.
  unfold CONFIGURATION_TEMPLATES, dict_of in *.
  cbn [field py_contains py_getitem] in *.
  rewrite Htemplate. cbn [bind negb].
  destruct template as [ | | | | | |fields]; cbn [field] in Hconfig;
    try discriminate.
  cbn [py_getitem]. rewrite Hconfig. cbn [bind]. rewrite G. cbn [bind].
  destruct (yaml_dump doc); reflexivity.
Qed.

(** X16: for every name in the template catalog the [/templates/<name>]
    handler generates the document of that template's [config], which
    validates with no defect, and answers 200 with its serialisation, or
    500 if the serialiser raises; for every other name it answers
    404. *)
Theorem get_template_answers (name : string) :
  if has_field name CONFIGURATION_TEMPLATES
  then exists template config doc,
      field name CONFIGURATION_TEMPLATES = Some template
      /\ field "config" template = Some config
      /\ generate_document py_repr config = Ok doc
      /\ validate_config py_repr doc = Ok {| valid := true; errors := [] |}
      /\ get_template py_repr yaml_dump name
         = match yaml_dump doc with
           | Ok text => YamlResponse text 200
           | Raise e => ErrorResponse (PyError e)
           end
  else get_template py_repr yaml_dump name
       = JsonResponse
           (dict_of
              [ ("error",
                 VStr ("Template " ++ dquote ++ name ++ dquote
                       ++ " not found")) ])
           404.
Proof.
  destruct (has_field name CONFIGURATION_TEMPLATES) eqn:Hknown.
  - destruct (known_template_cases name Hknown) as [-> | [-> | [-> | ->]]];
      do 3 eexists;
      (split; [reflexivity|]); (split; [reflexivity|]);
      (split; [reflexivity|]); (split; [reflexivity|]);
      eapply get_template_known; reflexivity.
  - unfold get_template.
    assert (E : py_contains name CONFIGURATION_TEMPLATES = Ok false).
    { unfold has_field, field in Hknown. unfold py_contains.
      unfold CONFIGURATION_TEMPLATES, dict_of in *.
      now destruct (dict_get _ name). }
    rewrite E. reflexivity.
Qed.

End HandlerAnswers.

(** ** These properties on concrete inputs *)

Lemma validate_config_returns_on_shaped_witness :
  document_shaped repr_placeholder doc_with_missing_keys = true
  /\ exists res,
      validate_config repr_placeholder doc_with_missing_keys = Ok res
      /\ errors res = document_defects repr_placeholder doc_with_missing_keys
      /\ valid res = document_ok doc_with_missing_keys
      /\ (has_field "version" doc_with_missing_keys = false ->
          In "Configuration missing 'version' field" (errors res))
      /\ (has_field "listeners" doc_with_missing_keys = false ->
          In "Configuration missing 'listeners' field" (errors res)).
Proof.
  split; [reflexivity|].
  apply (validate_config_returns_on_shaped
           repr_placeholder doc_with_missing_keys).
  reflexivity.
Defined.

Lemma validate_plugin_unsupported_type_witness :
  field "type" (dict_of [("type", VStr "rate-limit")])
  = Some (VStr "rate-limit")
  /\ in_strs (VStr "rate-limit") SUPPORTED_PLUGINS = false
  /\ validate_plugin repr_placeholder (dict_of [("type", VStr "rate-limit")])
     = Ok ["Unsupported plugin type: rate-limit"].
Proof.
  split; [reflexivity|]. split; [reflexivity|].
  apply (validate_plugin_unsupported_type
           repr_placeholder (dict_of [("type", VStr "rate-limit")])
           (VStr "rate-limit")); reflexivity.
Defined.

Lemma validate_plugin_missing_configuration_witness :
  has_field "configuration" (dict_of [("type", VStr "pii")]) = false
  /\ validate_plugin repr_placeholder (dict_of [("type", VStr "pii")])
     = Ok ["Plugin 'pii' missing 'configuration' field"].
Proof.
  split; [reflexivity|].
  apply (validate_plugin_missing_configuration
           repr_placeholder (dict_of [("type", VStr "pii")]) "pii").
  - right; right; left; reflexivity.
  - reflexivity.
  - reflexivity.
Defined.

Lemma validate_plugin_reads_checked_keys_witness :
  validate_plugin repr_placeholder
    (dict_of [ ("type", VStr "jailbreak");
               ("configuration",
                dict_of [("note", VStr "x"); ("enabled", VBool true)]) ])
  = validate_plugin repr_placeholder
      (dict_of [ ("type", VStr "jailbreak");
                 ("configuration", dict_of [("enabled", VBool true)]) ]).
Proof.
  apply (validate_plugin_reads_checked_keys
           repr_placeholder _ _ "jailbreak"
           [(VStr "note", VStr "x"); (VStr "enabled", VBool true)]
           [(VStr "enabled", VBool true)]).
  - right; left; reflexivity.
  - reflexivity.
  - reflexivity.
  - reflexivity.
  - reflexivity.
  - intros k H. simpl in H.
    repeat (destruct H as [<- | H]; [reflexivity|]). contradiction.
Defined.

Lemma validate_plugin_accepts_iff_witness :
  exists errs,
    validate_plugin repr_placeholder cache_plugin = Ok errs
    /\ (errs = []
        <-> configuration_ok "semantic-cache"
              [(VStr "enabled", VBool true)] = true).
Proof.
  apply (validate_plugin_accepts_iff
           repr_placeholder cache_plugin "semantic-cache"
           [(VStr "enabled", VBool true)]).
  - left; reflexivity.
  - reflexivity.
  - reflexivity.
Defined.

Lemma similarity_threshold_checked_instead_witness :
  exists errs,
    validate_plugin repr_placeholder zero_similarity_plugin = Ok errs
    /\ count_threshold_defects errs = 0%nat.
Proof.
  apply (similarity_threshold_checked_instead
           repr_placeholder zero_similarity_plugin "semantic-cache"
           [ (VStr "enabled", VBool true);
             (VStr "similarity_threshold", VFloat (S754_zero false)) ]
           (VFloat (S754_zero false))).
  - left; reflexivity.
  - reflexivity.
  - reflexivity.
  - reflexivity.
  - reflexivity.
  - exists 0%Q. split; [reflexivity|]. split; unfold Qle; simpl; lia.
Defined.

Lemma threshold_outside_unit_rejected_witness :
  exists errs,
    validate_plugin repr_placeholder high_threshold_plugin = Ok errs
    /\ count_threshold_defects errs = 1%nat.
Proof.
  apply (threshold_outside_unit_rejected
           repr_placeholder high_threshold_plugin "jailbreak"
           [ (VStr "enabled", VBool true);
             (VStr "threshold", VFloat float_1_5) ]
           (VFloat float_1_5)).
  - right; left; reflexivity.
  - reflexivity.
  - reflexivity.
  - reflexivity.
  - split; [reflexivity|]. split; [reflexivity|].
    intros (q & Hq & _ & H1). injection Hq as <-.
    unfold Qle in H1. simpl in H1. lia.
Defined.

Lemma falsy_threshold_rejected_witness :
  exists errs,
    validate_plugin repr_placeholder zero_threshold_plugin = Ok errs
    /\ count_threshold_defects errs = 1%nat.
Proof.
  apply (falsy_threshold_rejected
           repr_placeholder zero_threshold_plugin "jailbreak"
           [ (VStr "enabled", VBool true);
             (VStr "threshold", VFloat (S754_zero false)) ]
           (VFloat (S754_zero false))).
  - right; left; reflexivity.
  - reflexivity.
  - reflexivity.
  - reflexivity.
  - reflexivity.
  - reflexivity.
Defined.

Lemma validate_config_accepts_iff_witness :
  document_shaped repr_placeholder doc_with_missing_keys = true
  /\ exists res,
      validate_config repr_placeholder doc_with_missing_keys = Ok res
      /\ valid res = document_ok doc_with_missing_keys
      /\ (errors res = [] <-> document_ok doc_with_missing_keys = true).
Proof.
  split; [reflexivity|].
  apply (validate_config_accepts_iff repr_placeholder doc_with_missing_keys).
  reflexivity.
Defined.

Lemma validate_config_without_listeners_witness :
  exists has_version,
    py_contains "version" (VList [VStr "version"; VStr "1.0"])
    = Ok has_version
    /\ validate_config repr_placeholder (VList [VStr "version"; VStr "1.0"])
       = Ok {| valid := false;
               errors :=
                 (if has_version then []
                  else ["Configuration missing 'version' field"])
                 ++ ["Configuration missing 'listeners' field"] |}.
Proof.
  apply (validate_config_without_listeners
           repr_placeholder (VList [VStr "version"; VStr "1.0"]));
    reflexivity.
Defined.

Lemma generate_document_shape_witness :
  exists items visited decisions,
    params_two_endpoints_one_plugin = VDict items
    /\ py_iter (endpoints_in_use items) = Ok visited
    /\ two_endpoints_one_plugin_document
       = VDict
           [ (VStr "version", version_in_use items);
             (VStr "listeners",
              VList [ VDict [ (VStr "port", port_in_use items);
                              (VStr "endpoints",
                               endpoints_in_use items) ] ]);
             (VStr "decisions", VList decisions) ]
    /\ Forall2 (fun endpoint decision =>
                  exists name name_text,
                    field "name" endpoint = Some name
                    /\ format_value repr_placeholder name = Ok name_text
                    /\ decision = route_for items name name_text)
               visited decisions.
Proof.
  apply (generate_document_shape
           repr_placeholder params_two_endpoints_one_plugin
           two_endpoints_one_plugin_document).
  reflexivity.
Defined.

Lemma generate_document_returns_iff_witness :
  (exists doc,
      generate_document repr_placeholder
        (VDict two_endpoints_one_plugin_fields) = Ok doc)
  <-> forallb (has_usable_name repr_placeholder)
        [ dict_of [("name", VStr "a"); ("url", VStr "u1")];
          dict_of [("name", VStr "b"); ("url", VStr "u2")] ] = true.
Proof.
  apply (generate_document_returns_iff
           repr_placeholder two_endpoints_one_plugin_fields).
  reflexivity.
Defined.

Lemma generated_document_valid_iff_witness :
  exists doc res,
    generate_document repr_placeholder
      (VDict two_endpoints_one_plugin_fields) = Ok doc
    /\ validate_config repr_placeholder doc = Ok res
    /\ valid res
       = port_ok (port_in_use two_endpoints_one_plugin_fields)
         && forallb (has_field "url")
              [ dict_of [("name", VStr "a"); ("url", VStr "u1")];
                dict_of [("name", VStr "b"); ("url", VStr "u2")] ]
         && all_of plugin_ok
              (plugins_in_use two_endpoints_one_plugin_fields) true
    /\ (errors res = []
        <-> port_ok (port_in_use two_endpoints_one_plugin_fields) = true
            /\ forallb (has_field "url")
                 [ dict_of [("name", VStr "a"); ("url", VStr "u1")];
                   dict_of [("name", VStr "b"); ("url", VStr "u2")] ] = true
            /\ all_of plugin_ok
                 (plugins_in_use two_endpoints_one_plugin_fields) true
               = true).
Proof.
  apply (generated_document_valid_iff
           repr_placeholder two_endpoints_one_plugin_fields);
    reflexivity.
Defined.

Lemma generate_answers_witness :
  exists doc res,
    generate_document repr_placeholder
      (VDict two_endpoints_one_plugin_fields) = Ok doc
    /\ validate_config repr_placeholder doc = Ok res
    /\ valid res
       = port_ok (port_in_use two_endpoints_one_plugin_fields)
         && forallb (has_field "url")
              [ dict_of [("name", VStr "a"); ("url", VStr "u1")];
                dict_of [("name", VStr "b"); ("url", VStr "u2")] ]
         && all_of plugin_ok
              (plugins_in_use two_endpoints_one_plugin_fields) true
    /\ generate repr_placeholder yaml_placeholder
         (parse_as two_endpoints_one_plugin_document)
         (VDict two_endpoints_one_plugin_fields)
       = match yaml_placeholder doc with
         | Raise e => ErrorResponse (PyError e)
         | Ok text =>
             if valid res
             then YamlResponse text 200
             else JsonResponse
                    (dict_of
                       [ ("error",
                          VStr "Generated configuration is invalid");
                         ("validation_errors",
                          VList (map VStr (errors res))) ])
                    400
         end.
Proof.
  apply (generate_answers
           repr_placeholder yaml_placeholder
           (parse_as two_endpoints_one_plugin_document)
           two_endpoints_one_plugin_fields).
  - discriminate.
  - reflexivity.
  - reflexivity.
  - reflexivity.
  - intros doc text H _. vm_compute in H. injection H as <-. reflexivity.
Defined.

Lemma validate_answers_verdict_witness :
  exists res,
    validate_config repr_placeholder doc_with_missing_keys = Ok res
    /\ valid res = document_ok doc_with_missing_keys
    /\ errors res = document_defects repr_placeholder doc_with_missing_keys
    /\ validate repr_placeholder (parse_as doc_with_missing_keys)
         (dict_of [("config", VStr "<text>")])
       = JsonResponse (result_value res) 200.
Proof.
  apply (validate_answers_verdict
           repr_placeholder (parse_as doc_with_missing_keys)
           (dict_of [("config", VStr "<text>")])
           (VStr "<text>") doc_with_missing_keys);
    reflexivity.
Defined.

Lemma validate_answers_unparsed_or_scalar_witness :
  field "config" (dict_of [("config", VStr "")]) = Some (VStr "")
  /\ validate repr_placeholder (parse_as VNone)
       (dict_of [("config", VStr "")])
     = ErrorResponse (PyError TypeError).
Proof.
  split; [reflexivity|].
  apply (validate_answers_unparsed_or_scalar
           repr_placeholder (parse_as VNone)
           (dict_of [("config", VStr "")]) (VStr "") eq_refl).
  reflexivity.
Defined.
